(** * pure-bot: the auto-merge webhook handler

    A shallow embedding of [pkg/webhook/auto_merge.go] and the proofs of
    its merge-eligibility properties.

    The handler talks to GitHub through a [*github.Client].  Every call
    on that client is modelled as an operation of type [Op]; a Go function
    that uses the client becomes a program of type [Prog A], a tree whose
    nodes are the client calls in the order the code makes them and whose
    leaves are the returned values.  [run] executes such a program against
    an arbitrary client (a handler over an arbitrary world state) and
    records the calls that were made.

    Calls on [*zap.Logger] only write log lines and are left out. *)

From stdpp Require Import gmap strings list fin_maps pretty.
From Stdlib Require Import ZArith Ascii String.

Set Warnings "-register-all".

Local Open Scope Z_scope.
Local Open Scope string_scope.
Local Open Scope list_scope.

(** ** Errors *)

(** Go's [error] values, as far as the handler distinguishes them:
    [*github.ErrorResponse] (with the status code of its HTTP response),
    any other error, an error wrapped by [errors.Wrap]/[errors.Wrapf], and
    the aggregate built by [multierr.Combine].  A nil [error] is [None] in
    [option error]. *)
Inductive error : Type :=
| ErrorResponse (StatusCode : Z) (Message : string)
| errorString (s : string)
| withMessage (cause : error) (msg : string)
| multiError (errors : list error).

(** What a client call returns: go-github hands back the zero value of the
    payload together with every non-nil error, so a call yields either a
    payload or an error. *)
Inductive result (A : Type) : Type :=
| Ok (a : A)
| Err (err : error).
Arguments Ok {A} a.
Arguments Err {A} err.

(** [errors.Wrap(err, msg)] / [errors.Wrapf(err, format, args...)] with a
    non-nil [err], the only way the handler calls them. *)
Definition Wrap (err : error) (msg : string) : error := withMessage err msg.

(** The errors an [error] value stands for: none for nil, the members of a
    [multierr] aggregate, the error itself otherwise ([multierr.Errors]). *)
Definition Errors (err : option error) : list error :=
  match err with
  | None => []
  | Some (multiError errs) => errs
  | Some e => [e]
  end.

(** [multierr.Combine(a, b)]: nil when both are nil, the only non-nil one
    unchanged, otherwise an aggregate in which nested aggregates are
    flattened. *)
Definition Combine (a b : option error) : option error :=
  match a, b with
  | None, None => None
  | Some e, None => Some e
  | None, Some e => Some e
  | Some _, Some _ => Some (multiError (Errors a ++ Errors b))
  end.

Definition StatusNotFound : Z := 404.

(** ** The GitHub data the handler reads

    Pointer fields of go-github structs are [option]s; the [Get...]
    accessors return the zero value for a nil field or a nil receiver. *)

Record Label := { Label_Name : option string }.

Definition Label_GetName (l : Label) : string := default "" (Label_Name l).

Record PullRequestLinks := { PullRequestLinks_URL : option string }.

Record Issue := {
  Issue_Number : option Z;
  Issue_HTMLURL : option string;
  Issue_Labels : list Label;
  Issue_PullRequestLinks : option PullRequestLinks
}.

Definition Issue_GetNumber (i : Issue) : Z := default 0 (Issue_Number i).
Definition Issue_GetHTMLURL (i : Issue) : string := default "" (Issue_HTMLURL i).

Record PullRequestBranch := {
  PullRequestBranch_Ref : option string;
  PullRequestBranch_SHA : option string
}.

Definition PullRequestBranch_GetRef (b : option PullRequestBranch) : string :=
  default "" (b ≫= PullRequestBranch_Ref).
Definition PullRequestBranch_GetSHA (b : option PullRequestBranch) : string :=
  default "" (b ≫= PullRequestBranch_SHA).

Record PullRequest := {
  PullRequest_Number : option Z;
  PullRequest_HTMLURL : option string;
  PullRequest_Head : option PullRequestBranch;
  PullRequest_Base : option PullRequestBranch
}.

Definition PullRequest_GetNumber (pr : PullRequest) : Z := default 0 (PullRequest_Number pr).
Definition PullRequest_GetHTMLURL (pr : PullRequest) : string := default "" (PullRequest_HTMLURL pr).

Record RepoStatus := {
  RepoStatus_State : option string;
  RepoStatus_Context : option string
}.

Definition RepoStatus_GetState (s : RepoStatus) : string := default "" (RepoStatus_State s).
Definition RepoStatus_GetContext (s : RepoStatus) : string := default "" (RepoStatus_Context s).

Record CombinedStatus := { Statuses : list RepoStatus }.

(** [mergePR] dereferences [check.Name] unconditionally; GitHub always
    sends the name of a check run, and the field is a plain string here. *)
Record CheckRun := {
  CheckRun_Name : string;
  CheckRun_Conclusion : option string
}.

Record ListCheckRunsResults := { CheckRuns : list CheckRun }.

Record IssuesSearchResult := { Issues : list Issue }.

Record User := { User_Login : option string }.

Definition User_GetLogin (u : option User) : string := default "" (u ≫= User_Login).

Record Repository := {
  Repository_Owner : option User;
  Repository_Name : option string;
  Repository_FullName : option string
}.

Definition Repository_GetName (r : Repository) : string := default "" (Repository_Name r).
Definition Repository_GetFullName (r : Repository) : string := default "" (Repository_FullName r).

Record PullRequestReview := { PullRequestReview_State : option string }.

Definition PullRequestReview_GetState (r : option PullRequestReview) : string :=
  default "" (r ≫= PullRequestReview_State).

(** The three webhook payloads.  The handlers read [event.Repo.Owner] and
    [pr.Head] through the pointers [event.Repo] and [event.PullRequest]
    without a nil test; both are part of every such payload and are plain
    records here. *)
Record PullRequestEvent := {
  PullRequestEvent_Action : option string;
  PullRequestEvent_PullRequest : PullRequest;
  PullRequestEvent_Repo : Repository
}.

Definition PullRequestEvent_GetAction (e : PullRequestEvent) : string :=
  default "" (PullRequestEvent_Action e).

Record StatusEvent := {
  StatusEvent_SHA : option string;
  StatusEvent_State : option string;
  StatusEvent_Repo : Repository
}.

Definition StatusEvent_GetSHA (e : StatusEvent) : string := default "" (StatusEvent_SHA e).
Definition StatusEvent_GetState (e : StatusEvent) : string := default "" (StatusEvent_State e).

Record PullRequestReviewEvent := {
  PullRequestReviewEvent_Review : option PullRequestReview;
  PullRequestReviewEvent_PullRequest : PullRequest;
  PullRequestReviewEvent_Repo : Repository
}.

(** The dynamic type of [eventObject interface{}], as the type switch of
    [HandleEvent] tells it apart. *)
Inductive Event : Type :=
| EvPullRequest (event : PullRequestEvent)
| EvStatus (event : StatusEvent)
| EvPullRequestReview (event : PullRequestReviewEvent)
| EvOther.

(** [config.RepoConfig], of which the handler reads [Labels.Approved]. *)
Record LabelsConfig := { Approved : string }.
Record RepoConfig := { Labels : LabelsConfig }.

(** ** Client calls and programs over them *)

(** The methods of [*github.Client] the handler calls, with the arguments
    it passes (the [context.Context] and the nil options are left out). *)
Inductive Op : Type :=
| Search_Issues (query : string)
| Issues_Get (owner repo : string) (number : Z)
| PullRequests_Get (owner repo : string) (number : Z)
| Repositories_GetCombinedStatus (owner repo ref : string)
| Checks_ListCheckRunsForRef (owner repo ref : string)
| Repositories_ListRequiredStatusChecksContexts (owner repo branch : string)
| PullRequests_Merge (owner repo : string) (number : Z) (commitMessage : string) (SHA : string).

Definition resp (op : Op) : Type :=
  match op with
  | Search_Issues _ => result IssuesSearchResult
  | Issues_Get _ _ _ => result Issue
  | PullRequests_Get _ _ _ => result PullRequest
  | Repositories_GetCombinedStatus _ _ _ => result CombinedStatus
  | Checks_ListCheckRunsForRef _ _ _ => result ListCheckRunsResults
  | Repositories_ListRequiredStatusChecksContexts _ _ _ => result (list string)
  | PullRequests_Merge _ _ _ _ _ => result unit
  end.

Inductive Prog (A : Type) : Type :=
| Ret (a : A)
| Call (op : Op) (k : resp op → Prog A).
Arguments Ret {A} a.
Arguments Call {A} op k.

Fixpoint bind {A B} (p : Prog A) (f : A → Prog B) : Prog B :=
  match p with
  | Ret a => f a
  | Call op k => Call op (fun x => bind (k x) f)
  end.

Notation "'let*' x ':=' op 'in' p" := (Call op (fun x => p))
  (at level 10, x name, op at level 100, p at level 200, only parsing).

(** A client: how each call answers in a world [W] and what world it
    leaves behind. *)
Definition Client (W : Type) : Type := ∀ op : Op, W → resp op * W.

(** [run client p w] executes [p] against the client from world [w]: the
    returned value, the final world, and the calls made, oldest first. *)
Fixpoint run {W A} (client : Client W) (p : Prog A) (w : W) : A * W * list Op :=
  match p with
  | Ret a => (a, w, [])
  | Call op k =>
      let '(x, w1) := client op w in
      let '(a, w2, calls) := run client (k x) w1 in
      (a, w2, op :: calls)
  end.

(** [everyCall P p]: whatever the client answers, each call [p] makes
    satisfies [P]. *)
Fixpoint everyCall {A} (P : Op → Prop) (p : Prog A) : Prop :=
  match p with
  | Ret _ => True
  | Call op k => P op ∧ ∀ x, everyCall P (k x)
  end.

Definition isMerge (op : Op) : bool :=
  match op with
  | PullRequests_Merge _ _ _ _ _ => true
  | _ => false
  end.

(** ** The handler *)

Definition labeledEvent : string := "labeled".
Definition statusEventSuccessState : string := "success".
Definition checkEventSuccessConclusion : string := "success".

(** Modelled from the spec: the constant [approvedReviewState] is declared
    in another file of package [webhook]; the spec gives the review state
    that triggers a merge as "approved". *)
Definition approvedReviewState : string := "approved".

(** Modelled from the spec: [containsLabel] is defined in another file of
    package [webhook]; the spec takes the labels of an issue as a set of
    strings and gates on membership of the approved label. *)
Definition containsLabel (labels : list Label) (label : string) : bool :=
  existsb (fun l => bool_decide (Label_GetName l = label)) labels.

(** [strings.ToLower] on the bytes of the string: the letters A..Z are
    lowered, every other byte is kept.  Go also lowers letters outside
    ASCII; no such letter lowers to a letter of "labeled", "success" or
    "approved", so the comparisons below have the same outcome. *)
Definition toLowerByte (c : ascii) : ascii :=
  let n := N_of_ascii c in
  if ((65 <=? n) && (n <=? 90))%N then ascii_of_N (n + 32) else c.

Fixpoint ToLower (s : string) : string :=
  match s with
  | EmptyString => EmptyString
  | String c rest => String (toLowerByte c) (ToLower rest)
  end.

(** The type assertion of [err] to a pointer to [github.ErrorResponse],
    giving [errResp.Response.StatusCode] when it succeeds. *)
Definition asErrorResponse (err : error) : option Z :=
  match err with
  | ErrorResponse code _ => Some code
  | _ => None
  end.

(** The pair [(value, err)] a client method returns in Go. *)
Definition values {A} (zero : A) (r : result A) : A * option error :=
  match r with
  | Ok a => (a, None)
  | Err err => (zero, Some err)
  end.

(** [mergePR], lines 141-145: the loop over the legacy statuses. *)
Definition statusSucceeded (status : RepoStatus) : bool :=
  bool_decide (RepoStatus_GetState status = statusEventSuccessState).

Definition addStatuses (statuses : list RepoStatus) (prStatusMap : gmap string bool)
  : gmap string bool :=
  fold_left (fun m status => <[RepoStatus_GetContext status := statusSucceeded status]> m)
            statuses prStatusMap.

(** [mergePR], lines 152-157: the loop over the check runs. *)
Definition checkSucceeded (check : CheckRun) : bool :=
  match CheckRun_Conclusion check with
  | Some conclusion => bool_decide (conclusion = checkEventSuccessConclusion)
  | None => false
  end.

Definition addCheckRuns (checkRuns : list CheckRun) (prStatusMap : gmap string bool)
  : gmap string bool :=
  fold_left (fun m check => <[CheckRun_Name check := checkSucceeded check]> m)
            checkRuns prStatusMap.

(** [mergePR], lines 166-179: [true] when control reaches the merge call,
    [false] when one of the two loops returns nil.  Go ranges over the map
    in an unspecified order; the loop only looks for a false entry, so the
    order makes no difference. *)
Definition eligible (requiredContexts : list string) (prStatusMap : gmap string bool) : bool :=
  if bool_decide (List.length requiredContexts = 0%nat) then
    forallb (fun '(_, contextStatus) => contextStatus) (map_to_list prStatusMap)
  else
    forallb (fun requiredContext =>
               match prStatusMap !! requiredContext with
               | Some success => success
               | None => false
               end) requiredContexts.

Definition mergePR (issue : Issue) (pr : PullRequest) (owner repository : string)
    (commitSHA : string) (config : RepoConfig) : Prog (option error) :=
  if negb (containsLabel (Issue_Labels issue) (Approved (Labels config))) then Ret None
  else if negb (bool_decide (commitSHA = ""))
          && negb (bool_decide (PullRequestBranch_GetSHA (PullRequest_Head pr) = commitSHA))
  then Ret None
  else
    let commitSHA := PullRequestBranch_GetSHA (PullRequest_Head pr) in
    let* r := Repositories_GetCombinedStatus owner repository commitSHA in
    match r with
    | Err err =>
        Ret (Some (Wrap err ("failed to get statuses of pull request "
                             +:+ Issue_GetHTMLURL issue)))
    | Ok statuses =>
        let prStatusMap := addStatuses (Statuses statuses) ∅ in
        let* r := Checks_ListCheckRunsForRef owner repository commitSHA in
        match r with
        | Err err =>
            Ret (Some (Wrap err ("failed to retrieve all check for pull request "
                                 +:+ Issue_GetHTMLURL issue)))
        | Ok prChecks =>
            let prStatusMap := addCheckRuns (CheckRuns prChecks) prStatusMap in
            let* r := Repositories_ListRequiredStatusChecksContexts owner repository
                   (PullRequestBranch_GetRef (PullRequest_Base pr)) in
            let '(requiredContexts, err) := values [] r in
            (* lines 166-189, entered when the error test of lines 160-164
               does not return *)
            let proceed :=
              if eligible requiredContexts prStatusMap then
                let* r := PullRequests_Merge owner repository (Issue_GetNumber issue) "" commitSHA in
                match r with
                | Err err' =>
                    Ret (Some (Wrap err' ("failed to merge pull request "
                                          +:+ Issue_GetHTMLURL issue)))
                | Ok _ => Ret None
                end
              else Ret None in
            match err with
            | Some err' =>
                if match asErrorResponse err' with
                   | Some code => bool_decide (code ≠ StatusNotFound)
                   | None => true
                   end
                then
                  Ret (Some (Wrap err' ("failed to get target branch ("
                                        +:+ PullRequestBranch_GetRef (PullRequest_Base pr)
                                        +:+ ") protection for pull request "
                                        +:+ Issue_GetHTMLURL issue)))
                else proceed
            | None => proceed
            end
        end
    end.

Definition mergePRFromPullRequestEvent (repo : Repository) (pullRequest : PullRequest)
    (config : RepoConfig) : Prog (option error) :=
  let* r := Issues_Get (User_GetLogin (Repository_Owner repo)) (Repository_GetName repo)
                       (PullRequest_GetNumber pullRequest) in
  match r with
  | Err err =>
      Ret (Some (Wrap err ("failed to get pull request "
                           +:+ PullRequest_GetHTMLURL pullRequest)))
  | Ok issue =>
      mergePR issue pullRequest (User_GetLogin (Repository_Owner repo))
              (Repository_GetName repo) "" config
  end.

Definition handlePullRequestReviewEvent (event : PullRequestReviewEvent)
    (config : RepoConfig) : Prog (option error) :=
  if negb (bool_decide
             (ToLower (PullRequestReview_GetState (PullRequestReviewEvent_Review event))
              = approvedReviewState))
  then Ret None
  else mergePRFromPullRequestEvent (PullRequestReviewEvent_Repo event)
                                   (PullRequestReviewEvent_PullRequest event) config.

Definition handlePullRequestEvent (event : PullRequestEvent)
    (config : RepoConfig) : Prog (option error) :=
  if negb (bool_decide (ToLower (PullRequestEvent_GetAction event) = labeledEvent))
  then Ret None
  else mergePRFromPullRequestEvent (PullRequestEvent_Repo event)
                                   (PullRequestEvent_PullRequest event) config.

(** [handleStatusEvent], lines 94-113: the loop over [searchResult.Issues],
    with [multiErr] as the accumulator it returns at the end. *)
Fixpoint handleStatusEvent_range (event : StatusEvent) (commitSHA : string)
    (config : RepoConfig) (issues : list Issue) (multiErr : option error)
  : Prog (option error) :=
  match issues with
  | [] => Ret multiErr
  | issue :: rest =>
      match Issue_PullRequestLinks issue with
      | None => handleStatusEvent_range event commitSHA config rest multiErr
      | Some _ =>
          let* r := PullRequests_Get (User_GetLogin (Repository_Owner (StatusEvent_Repo event)))
                                     (Repository_GetName (StatusEvent_Repo event))
                                     (Issue_GetNumber issue) in
          match r with
          | Err err =>
              handleStatusEvent_range event commitSHA config rest
                                      (Combine multiErr (Some err))
          | Ok pr =>
              bind (mergePR issue pr
                            (User_GetLogin (Repository_Owner (StatusEvent_Repo event)))
                            (Repository_GetName (StatusEvent_Repo event))
                            commitSHA config)
                   (fun err =>
                      match err with
                      | Some _ =>
                          handleStatusEvent_range event commitSHA config rest
                                                  (Combine multiErr err)
                      | None => handleStatusEvent_range event commitSHA config rest multiErr
                      end)
          end
      end
  end.

Definition handleStatusEvent (event : StatusEvent) (config : RepoConfig)
  : Prog (option error) :=
  if negb (bool_decide (ToLower (StatusEvent_GetState event) = statusEventSuccessState))
  then Ret None
  else
    let commitSHA := StatusEvent_GetSHA event in
    let query := "type:pr state:open repo:"
                 +:+ Repository_GetFullName (StatusEvent_Repo event)
                 +:+ " " +:+ commitSHA in
    let* r := Search_Issues query in
    match r with
    | Err err => Ret (Some (Wrap err "failed to search for open issues"))
    | Ok searchResult =>
        handleStatusEvent_range event commitSHA config (Issues searchResult) None
    end.

Definition HandleEvent (eventObject : Event) (config : RepoConfig) : Prog (option error) :=
  let approvedLabel := Approved (Labels config) in
  if bool_decide (approvedLabel = "") then Ret None
  else
    match eventObject with
    | EvPullRequest event => handlePullRequestEvent event config
    | EvStatus event => handleStatusEvent event config
    | EvPullRequestReview event => handlePullRequestReviewEvent event config
    | EvOther => Ret None
    end.

(** ** A table-driven client for concrete runs

    The world is the list of pull request numbers merged so far. *)
Record Forge := {
  forge_search : result IssuesSearchResult;
  forge_issue : Z → result Issue;
  forge_pullRequest : Z → result PullRequest;
  forge_statuses : string → result CombinedStatus;
  forge_checkRuns : string → result ListCheckRunsResults;
  forge_requiredContexts : string → result (list string);
  forge_merge : Z → result unit
}.

Definition forgeClient (f : Forge) : Client (list Z) :=
  fun op merged =>
    match op return resp op * list Z with
    | Search_Issues _ => (forge_search f, merged)
    | Issues_Get _ _ number => (forge_issue f number, merged)
    | PullRequests_Get _ _ number => (forge_pullRequest f number, merged)
    | Repositories_GetCombinedStatus _ _ ref => (forge_statuses f ref, merged)
    | Checks_ListCheckRunsForRef _ _ ref => (forge_checkRuns f ref, merged)
    | Repositories_ListRequiredStatusChecksContexts _ _ branch =>
        (forge_requiredContexts f branch, merged)
    | PullRequests_Merge _ _ number _ _ =>
        match forge_merge f number with
        | Ok _ => (Ok (), merged ++ [number])
        | Err err => (Err err, merged)
        end
    end.

Module Sample.

Definition approved : Label := {| Label_Name := Some "approved" |}.
Definition config : RepoConfig := {| Labels := {| Approved := "approved" |} |}.

Definition url (number : Z) : string := "https://github.com/o/r/pull/" +:+ pretty number.

Definition issue (number : Z) : Issue :=
  {| Issue_Number := Some number;
     Issue_HTMLURL := Some (url number);
     Issue_Labels := [approved];
     Issue_PullRequestLinks := Some {| PullRequestLinks_URL := None |} |}.

Definition pr (number : Z) (sha : string) : PullRequest :=
  {| PullRequest_Number := Some number;
     PullRequest_HTMLURL := Some (url number);
     PullRequest_Head := Some {| PullRequestBranch_Ref := Some "topic";
                                 PullRequestBranch_SHA := Some sha |};
     PullRequest_Base := Some {| PullRequestBranch_Ref := Some "master";
                                 PullRequestBranch_SHA := None |} |}.

Definition status (context state : string) : RepoStatus :=
  {| RepoStatus_State := Some state; RepoStatus_Context := Some context |}.

Definition check (name : string) (conclusion : option string) : CheckRun :=
  {| CheckRun_Name := name; CheckRun_Conclusion := conclusion |}.

Definition forge (statuses : list RepoStatus) (checkRuns : list CheckRun)
    (required : result (list string)) : Forge :=
  {| forge_search := Ok {| Issues := [issue 7] |};
     forge_issue := fun n => Ok (issue n);
     forge_pullRequest := fun n => Ok (pr n "abc");
     forge_statuses := fun _ => Ok {| Statuses := statuses |};
     forge_checkRuns := fun _ => Ok {| CheckRuns := checkRuns |};
     forge_requiredContexts := fun _ => required;
     forge_merge := fun _ => Ok () |}.

(** The second scenario of the spec: "ci/build" has succeeded, "ci/test"
    is required and has not reported. *)
Definition missingTest : Forge :=
  forge [status "ci/build" "success"] [] (Ok ["ci/build"; "ci/test"]).

Definition notProtected : result (list string) :=
  Err (ErrorResponse 404 "Branch not protected").

Definition threeStatuses : CombinedStatus :=
  {| Statuses := [status "ci/build" "success"; status "ci/test" "success";
                  status "lint" "success"] |}.

(** The first scenario of the spec: no branch protection, three statuses,
    all successful. *)
Definition unprotected : Forge := forge (Statuses threeStatuses) [] notProtected.

(** The branch protection lookup is refused. *)
Definition forbidden : Forge :=
  forge [status "ci/build" "success"] [] (Err (ErrorResponse 403 "Forbidden")).

(** A pull request that carries other labels only. *)
Definition unlabelled : Issue :=
  {| Issue_Number := Some 7;
     Issue_HTMLURL := Some (url 7);
     Issue_Labels := [{| Label_Name := Some "wip" |}; {| Label_Name := None |}];
     Issue_PullRequestLinks := Some {| PullRequestLinks_URL := None |} |}.

Definition repo : Repository :=
  {| Repository_Owner := Some {| User_Login := Some "o" |};
     Repository_Name := Some "r";
     Repository_FullName := Some "o/r" |}.

Definition pullRequestEvent (action : string) : PullRequestEvent :=
  {| PullRequestEvent_Action := Some action;
     PullRequestEvent_PullRequest := pr 7 "abc";
     PullRequestEvent_Repo := repo |}.

Definition reviewEvent (state : string) : PullRequestReviewEvent :=
  {| PullRequestReviewEvent_Review := Some {| PullRequestReview_State := Some state |};
     PullRequestReviewEvent_PullRequest := pr 7 "abc";
     PullRequestReviewEvent_Repo := repo |}.

Definition statusEvent (state : string) : StatusEvent :=
  {| StatusEvent_SHA := Some "abc";
     StatusEvent_State := Some state;
     StatusEvent_Repo := repo |}.

(** A commit referenced by the open pull requests 7 and 8 (and by the
    plain issue 9); merging 7 runs into a conflict. *)
Definition conflict : error := errorString "merge conflict".

Definition plainIssue (number : Z) : Issue :=
  {| Issue_Number := Some number;
     Issue_HTMLURL := None;
     Issue_Labels := [approved];
     Issue_PullRequestLinks := None |}.

Definition twoPullRequests : Forge :=
  {| forge_search := Ok {| Issues := [issue 7; plainIssue 9; issue 8] |};
     forge_issue := fun n => Ok (issue n);
     forge_pullRequest := fun n => Ok (pr n "abc");
     forge_statuses := fun _ => Ok {| Statuses := [status "ci/build" "success"] |};
     forge_checkRuns := fun _ => Ok {| CheckRuns := [] |};
     forge_requiredContexts := fun _ => notProtected;
     forge_merge := fun n => if bool_decide (n = 7) then Err conflict else Ok () |}.

(** A check run "ci/build" that failed and was run again with success,
    next to a legacy status of the same context. *)
Definition rerun : ListCheckRunsResults :=
  {| CheckRuns := [check "ci/build" (Some "failure"); check "ci/build" (Some "success")] |}.

(** "ci/build" is required and has succeeded; a check run "lint", which
    is not required, has not concluded yet. *)
Definition lintPending : Forge :=
  forge [status "ci/build" "success"] [check "lint" None] (Ok ["ci/build"]).

(** The legacy status "ci/build" has succeeded, the check run of the same
    name has not concluded yet, and "ci/build" is required. *)
Definition buildPending : Forge :=
  forge [status "ci/build" "success"] [check "ci/build" None] (Ok ["ci/build"]).

Definition badGateway : error := errorString "502 Bad Gateway".

(** The combined status of the commit cannot be fetched. *)
Definition statusesDown : Forge :=
  {| forge_search := Ok {| Issues := [issue 7] |};
     forge_issue := fun n => Ok (issue n);
     forge_pullRequest := fun n => Ok (pr n "abc");
     forge_statuses := fun _ => Err badGateway;
     forge_checkRuns := fun _ => Ok {| CheckRuns := [] |};
     forge_requiredContexts := fun _ => notProtected;
     forge_merge := fun _ => Ok () |}.

(** The check runs of the commit cannot be fetched. *)
Definition checksDown : Forge :=
  {| forge_search := Ok {| Issues := [issue 7] |};
     forge_issue := fun n => Ok (issue n);
     forge_pullRequest := fun n => Ok (pr n "abc");
     forge_statuses := fun _ => Ok {| Statuses := [status "ci/build" "success"] |};
     forge_checkRuns := fun _ => Err badGateway;
     forge_requiredContexts := fun _ => notProtected;
     forge_merge := fun _ => Ok () |}.

(** The issue of the pull request cannot be fetched. *)
Definition issueDown : Forge :=
  {| forge_search := Ok {| Issues := [issue 7] |};
     forge_issue := fun _ => Err badGateway;
     forge_pullRequest := fun n => Ok (pr n "abc");
     forge_statuses := fun _ => Ok {| Statuses := [status "ci/build" "success"] |};
     forge_checkRuns := fun _ => Ok {| CheckRuns := [] |};
     forge_requiredContexts := fun _ => notProtected;
     forge_merge := fun _ => Ok () |}.

(** The search for open pull requests fails. *)
Definition searchDown : Forge :=
  {| forge_search := Err badGateway;
     forge_issue := fun n => Ok (issue n);
     forge_pullRequest := fun n => Ok (pr n "abc");
     forge_statuses := fun _ => Ok {| Statuses := [status "ci/build" "success"] |};
     forge_checkRuns := fun _ => Ok {| CheckRuns := [] |};
     forge_requiredContexts := fun _ => notProtected;
     forge_merge := fun _ => Ok () |}.

(** The search finds plain issues only. *)
Definition onlyIssues : Forge :=
  {| forge_search := Ok {| Issues := [plainIssue 9; plainIssue 10] |};
     forge_issue := fun n => Ok (issue n);
     forge_pullRequest := fun n => Ok (pr n "abc");
     forge_statuses := fun _ => Ok {| Statuses := [status "ci/build" "success"] |};
     forge_checkRuns := fun _ => Ok {| CheckRuns := [] |};
     forge_requiredContexts := fun _ => notProtected;
     forge_merge := fun _ => Ok () |}.


(** The only status of the commit is still pending, and its context is
    required. *)
Definition statusPending : Forge :=
  forge [status "ci/build" "pending"] [] (Ok ["ci/build"]).

(** The check run "ci/build" ended with the conclusion "neutral"; the
    branch is not protected. *)
Definition neutralCheck : Forge :=
  forge [status "lint" "success"] [check "ci/build" (Some "neutral")] notProtected.


End Sample.

(** ** Vocabulary for the statements *)

Definition headSHA (pr : PullRequest) : string :=
  PullRequestBranch_GetSHA (PullRequest_Head pr).

Definition baseRef (pr : PullRequest) : string :=
  PullRequestBranch_GetRef (PullRequest_Base pr).

(** The value of [prStatusMap] in [mergePR] once both loops are done
    (line 158). *)
Definition prStatusMapOf (statuses : CombinedStatus) (prChecks : ListCheckRunsResults)
  : gmap string bool :=
  addCheckRuns (CheckRuns prChecks) (addStatuses (Statuses statuses) ∅).

(** The two gates at the head of [mergePR] let the call through. *)
Definition passesGates (issue : Issue) (pr : PullRequest) (commitSHA : string)
    (config : RepoConfig) : Prop :=
  containsLabel (Issue_Labels issue) (Approved (Labels config)) = true
  ∧ (commitSHA = "" ∨ headSHA pr = commitSHA).

(** From world [w] the client answers the three lookups of [mergePR] with
    [statuses], [prChecks] and [required], and leaves world [w']. *)
Definition fetches {W} (client : Client W) (w : W) (owner repository : string)
    (pr : PullRequest) (statuses : CombinedStatus) (prChecks : ListCheckRunsResults)
    (required : result (list string)) (w' : W) : Prop :=
  ∃ w1 w2,
    client (Repositories_GetCombinedStatus owner repository (headSHA pr)) w
    = (Ok statuses, w1)
    ∧ client (Checks_ListCheckRunsForRef owner repository (headSHA pr)) w1
      = (Ok prChecks, w2)
    ∧ client (Repositories_ListRequiredStatusChecksContexts owner repository (baseRef pr)) w2
      = (required, w').

Definition fetchCalls (owner repository : string) (pr : PullRequest) : list Op :=
  [Repositories_GetCombinedStatus owner repository (headSHA pr);
   Checks_ListCheckRunsForRef owner repository (headSHA pr);
   Repositories_ListRequiredStatusChecksContexts owner repository (baseRef pr)].

(** The call [mergePR] makes at line 181. *)
Definition mergeCall (issue : Issue) (pr : PullRequest) (owner repository : string) : Op :=
  PullRequests_Merge owner repository (Issue_GetNumber issue) "" (headSHA pr).

Definition mergeCalled (calls : list Op) : bool := existsb isMerge calls.

Definition isPullRequestsGet (op : Op) : bool :=
  match op with
  | PullRequests_Get _ _ _ => true
  | _ => false
  end.

(** What the spec calls processing one pull request of a commit-status
    event: look the pull request up, then evaluate it with the commit
    pinned; the outcome is the error of that pull request, if any. *)
Definition attemptPR (event : StatusEvent) (config : RepoConfig) (issue : Issue)
  : Prog (option error) :=
  let owner := User_GetLogin (Repository_Owner (StatusEvent_Repo event)) in
  let name := Repository_GetName (StatusEvent_Repo event) in
  let* r := PullRequests_Get owner name (Issue_GetNumber issue) in
  match r with
  | Err err => Ret (Some err)
  | Ok pr => mergePR issue pr owner name (StatusEvent_GetSHA event) config
  end.

(** Every pull request of the list attempted in turn, each from the world
    its predecessor left: the outcomes in order, the final world and all
    calls made. *)
Fixpoint attemptAll {W} (client : Client W) (event : StatusEvent) (config : RepoConfig)
    (issues : list Issue) (w : W) : list (option error) * W * list Op :=
  match issues with
  | [] => ([], w, [])
  | issue :: rest =>
      let '(err, w1, calls1) := run client (attemptPR event config issue) w in
      let '(errs, w2, calls2) := attemptAll client event config rest w1 in
      (err :: errs, w2, calls1 ++ calls2)
  end.

Definition isPullRequest (issue : Issue) : bool :=
  match Issue_PullRequestLinks issue with
  | Some _ => true
  | None => false
  end.

Definition searchQuery (event : StatusEvent) : string :=
  "type:pr state:open repo:" +:+ Repository_GetFullName (StatusEvent_Repo event)
  +:+ " " +:+ StatusEvent_GetSHA event.

(** What is left of a run of [mergePR] after the three lookups (lines
    166-189), from world [w]: the merge call and its outcome when the
    pull request is eligible, nothing otherwise. *)
Definition runDecision {W} (client : Client W) (w : W) (issue : Issue) (pr : PullRequest)
    (owner repository : string) (requiredContexts : list string)
    (prStatusMap : gmap string bool) : option error * W * list Op :=
  if eligible requiredContexts prStatusMap then
    let '(r, w') := client (mergeCall issue pr owner repository) w in
    (match r with
     | Err err => Some (Wrap err ("failed to merge pull request " +:+ Issue_GetHTMLURL issue))
     | Ok _ => None
     end, w', fetchCalls owner repository pr ++ [mergeCall issue pr owner repository])
  else (None, w, fetchCalls owner repository pr).



(** The number of merge calls among the calls of a run. *)
Definition merges (calls : list Op) : nat := List.length (List.filter isMerge calls).

(** The repository and pull request of an event that passes the trigger
    test of [handlePullRequestEvent] or [handlePullRequestReviewEvent]
    (lines 63 and 73); [None] for every other event. *)
Definition triggered (eventObject : Event) : option (Repository * PullRequest) :=
  match eventObject with
  | EvPullRequest event =>
      if bool_decide (ToLower (PullRequestEvent_GetAction event) = labeledEvent)
      then Some (PullRequestEvent_Repo event, PullRequestEvent_PullRequest event)
      else None
  | EvPullRequestReview event =>
      if bool_decide
           (ToLower (PullRequestReview_GetState (PullRequestReviewEvent_Review event))
            = approvedReviewState)
      then Some (PullRequestReviewEvent_Repo event,
                 PullRequestReviewEvent_PullRequest event)
      else None
  | _ => None
  end.

(** The call [mergePRFromPullRequestEvent] makes at line 117. *)
Definition issueCall (repo : Repository) (pullRequest : PullRequest) : Op :=
  Issues_Get (User_GetLogin (Repository_Owner repo)) (Repository_GetName repo)
             (PullRequest_GetNumber pullRequest).

(** ** The eligibility decision *)

Section Eligibility.

Implicit Types (requiredContexts : list string) (prStatusMap : gmap string bool).

Lemma eligible_nil prStatusMap :
  eligible [] prStatusMap = true ↔ ∀ context b, prStatusMap !! context = Some b → b = true.
Proof.
  unfold eligible. rewrite bool_decide_eq_true_2 by done.
  rewrite forallb_forall. split.
  - intros H context b Hb.
    apply (H (context, b)), list_elem_of_In, elem_of_map_to_list, Hb.
  - intros H [context b] Hin.
    apply list_elem_of_In, elem_of_map_to_list in Hin. eauto.
Qed.

Lemma eligible_required requiredContexts prStatusMap :
  requiredContexts ≠ [] →
  eligible requiredContexts prStatusMap = true
  ↔ ∀ context, context ∈ requiredContexts → prStatusMap !! context = Some true.
Proof.
  intros Hne. unfold eligible.
  rewrite bool_decide_eq_false_2 by (by destruct requiredContexts).
  rewrite forallb_forall. split.
  - intros H context Hin. apply list_elem_of_In, H in Hin.
    destruct (prStatusMap !! context) as [[]|]; done.
  - intros H context Hin. apply list_elem_of_In, H in Hin. by rewrite Hin.
Qed.

Lemma eligible_false_required requiredContexts prStatusMap context :
  context ∈ requiredContexts →
  prStatusMap !! context = None ∨ prStatusMap !! context = Some false →
  eligible requiredContexts prStatusMap = false.
Proof.
  intros Hin Hbad. apply not_true_is_false. intros Hel.
  assert (Hne : requiredContexts ≠ []) by (intros ->; inversion Hin).
  pose proof (proj1 (eligible_required _ prStatusMap Hne) Hel _ Hin).
  destruct Hbad; congruence.
Qed.

End Eligibility.

(** ** The aggregated status map *)

Section Aggregation.

Implicit Types (statuses : list RepoStatus) (checkRuns : list CheckRun)
         (m : gmap string bool).

Lemma addCheckRuns_app checkRuns1 checkRuns2 m :
  addCheckRuns (checkRuns1 ++ checkRuns2) m
  = addCheckRuns checkRuns2 (addCheckRuns checkRuns1 m).
Proof. apply fold_left_app. Qed.

Lemma addCheckRuns_other checkRuns m context :
  Forall (fun check => CheckRun_Name check ≠ context) checkRuns →
  addCheckRuns checkRuns m !! context = m !! context.
Proof.
  intros H. revert m. induction H as [|check rest Hne _ IH]; intros m; [done|].
  cbn. unfold addCheckRuns in IH. rewrite IH. by apply lookup_insert_ne.
Qed.

(** The entry of a name that some check run carries is the success flag
    of the last check run with that name, whatever was in the map. *)
Lemma addCheckRuns_last before check after m :
  Forall (fun later => CheckRun_Name later ≠ CheckRun_Name check) after →
  addCheckRuns (before ++ check :: after) m !! CheckRun_Name check
  = Some (checkSucceeded check).
Proof.
  intros Hafter. rewrite addCheckRuns_app. cbn.
  change (fold_left _ after ?x) with (addCheckRuns after x).
  rewrite addCheckRuns_other by done. apply lookup_insert_eq.
Qed.

(** A context that no check run carries keeps the value of its legacy
    statuses. *)
Lemma prStatusMapOf_status_only (statuses : CombinedStatus)
    (prChecks : ListCheckRunsResults) (context : string) :
  Forall (fun check => CheckRun_Name check ≠ context) (CheckRuns prChecks) →
  prStatusMapOf statuses prChecks !! context
  = addStatuses (Statuses statuses) ∅ !! context.
Proof. intros H. unfold prStatusMapOf. by apply addCheckRuns_other. Qed.

(** Splitting the check runs at the last one of a given name. *)
Lemma split_last_check checkRuns context :
  Exists (fun check => CheckRun_Name check = context) checkRuns →
  ∃ before check after,
    checkRuns = before ++ check :: after
    ∧ CheckRun_Name check = context
    ∧ Forall (fun later => CheckRun_Name later ≠ CheckRun_Name check) after.
Proof.
  induction checkRuns as [|c rest IH]; intros Hex; [by inversion Hex|].
  destruct (decide (Exists (fun check => CheckRun_Name check = context) rest))
    as [Hrest|Hrest].
  - destruct (IH Hrest) as (before & check & after & -> & Hname & Hafter).
    by exists (c :: before), check, after.
  - inversion Hex as [? ? Hc|]; [|done]. subst.
    exists [], c, rest. split_and!; [done..|].
    by apply Forall_Exists_neg in Hrest.
Qed.

End Aggregation.

Example sample_run_merges :
  run (forgeClient (Sample.forge [Sample.status "ci/build" "success"]
                                 [Sample.check "ci/test" (Some "success")]
                                 (Ok ["ci/build"; "ci/test"])))
      (mergePR (Sample.issue 7) (Sample.pr 7 "abc") "o" "r" "" Sample.config) []
  = (None, [7],
     [Repositories_GetCombinedStatus "o" "r" "abc";
      Checks_ListCheckRunsForRef "o" "r" "abc";
      Repositories_ListRequiredStatusChecksContexts "o" "r" "master";
      PullRequests_Merge "o" "r" 7 "" "abc"]).
Proof. vm_compute. reflexivity. Qed.

Example sample_run_missing_context :
  run (forgeClient (Sample.forge [Sample.status "ci/build" "success"] []
                                 (Ok ["ci/build"; "ci/test"])))
      (mergePR (Sample.issue 7) (Sample.pr 7 "abc") "o" "r" "" Sample.config) []
  = (None, [],
     [Repositories_GetCombinedStatus "o" "r" "abc";
      Checks_ListCheckRunsForRef "o" "r" "abc";
      Repositories_ListRequiredStatusChecksContexts "o" "r" "master"]).
Proof. vm_compute. reflexivity. Qed.

(** ** Running programs *)

Section Run.

Context {W : Type} (client : Client W).

Lemma run_bind {A B} (p : Prog A) (f : A → Prog B) (w : W) :
  run client (bind p f) w
  = let '(a, w1, calls1) := run client p w in
    let '(b, w2, calls2) := run client (f a) w1 in
    (b, w2, calls1 ++ calls2).
Proof.
  revert w. induction p as [a|op k IH]; intros w; cbn.
  - by destruct (run client (f a) w) as [[b w2] calls2].
  - destruct (client op w) as [x w1]. rewrite IH.
    destruct (run client (k x) w1) as [[a w2] calls1].
    by destruct (run client (f a) w2) as [[b w3] calls2].
Qed.

Lemma everyCall_run {A} (P : Op → Prop) (p : Prog A) (w : W) :
  everyCall P p → Forall P (run client p w).2.
Proof.
  revert w. induction p as [a|op k IH]; intros w; cbn; [constructor|].
  intros [Hop Hk]. destruct (client op w) as [x w1].
  specialize (IH x w1 (Hk x)).
  destruct (run client (k x) w1) as [[a w2] calls]. by constructor.
Qed.

End Run.

(** ** Runs of [mergePR] *)

Section MergePR.

Context {W : Type} (client : Client W).
Variables (issue : Issue) (pr : PullRequest) (owner repository commitSHA : string)
          (config : RepoConfig).

Lemma mergePR_unlabelled :
  containsLabel (Issue_Labels issue) (Approved (Labels config)) = false →
  mergePR issue pr owner repository commitSHA config = Ret None.
Proof. intros H. unfold mergePR. by rewrite H. Qed.

Lemma mergePR_stale :
  commitSHA ≠ "" → headSHA pr ≠ commitSHA →
  mergePR issue pr owner repository commitSHA config = Ret None.
Proof.
  intros Hpinned Hstale. unfold mergePR, headSHA in *.
  destruct (containsLabel _ _); [|done]. cbn.
  by rewrite !bool_decide_eq_false_2.
Qed.

Variables (w w' : W) (statuses : CombinedStatus) (prChecks : ListCheckRunsResults).
Hypothesis gates : passesGates issue pr commitSHA config.

Lemma run_mergePR_fetched (required : result (list string)) :
  fetches client w owner repository pr statuses prChecks required w' →
  run client (mergePR issue pr owner repository commitSHA config) w
  = match required with
    | Ok requiredContexts =>
        runDecision client w' issue pr owner repository requiredContexts
                    (prStatusMapOf statuses prChecks)
    | Err err =>
        if bool_decide (asErrorResponse err = Some StatusNotFound) then
          runDecision client w' issue pr owner repository []
                      (prStatusMapOf statuses prChecks)
        else
          (Some (Wrap err ("failed to get target branch (" +:+ baseRef pr
                           +:+ ") protection for pull request "
                           +:+ Issue_GetHTMLURL issue)),
           w', fetchCalls owner repository pr)
    end.
Proof.
  destruct gates as [Hlabel Hsha].
  intros (w1 & w2 & H1 & H2 & H3).
  unfold mergePR, headSHA, baseRef in *. rewrite Hlabel. cbn [negb].
  assert (negb (bool_decide (commitSHA = ""))
          && negb (bool_decide
                     (PullRequestBranch_GetSHA (PullRequest_Head pr) = commitSHA))
          = false) as ->.
  { destruct Hsha as [->|Heq].
    - by rewrite bool_decide_eq_true_2.
    - rewrite (bool_decide_eq_true_2 _ Heq). apply andb_false_r. }
  cbn [run]. rewrite H1. cbn [run]. rewrite H2. cbn [run]. rewrite H3.
  unfold runDecision, prStatusMapOf, mergeCall, fetchCalls, headSHA, baseRef.
  destruct required as [requiredContexts|err]; cbn [values].
  - destruct (eligible _ _); cbn [run]; [|done].
    by destruct (client _ w') as [[] ?].
  - destruct err as [code msg| | |]; cbn [asErrorResponse]; try done.
    destruct (decide (code = StatusNotFound)) as [->|Hne].
    + rewrite bool_decide_eq_false_2 by (intros H; by apply H).
      rewrite bool_decide_eq_true_2 by done.
      destruct (eligible _ _); cbn [run]; [|done].
      by destruct (client _ w') as [[] ?].
    + rewrite bool_decide_eq_true_2 by done.
      rewrite bool_decide_eq_false_2 by congruence. done.
Qed.

End MergePR.

Section Decision.

Context {W : Type} (client : Client W).
Variables (w : W) (issue : Issue) (pr : PullRequest) (owner repository : string)
          (requiredContexts : list string) (prStatusMap : gmap string bool).

Lemma runDecision_eligible :
  eligible requiredContexts prStatusMap = true →
  ∃ r w',
    client (mergeCall issue pr owner repository) w = (r, w')
    ∧ runDecision client w issue pr owner repository requiredContexts prStatusMap
      = (match r with
         | Err err =>
             Some (Wrap err ("failed to merge pull request " +:+ Issue_GetHTMLURL issue))
         | Ok _ => None
         end, w', fetchCalls owner repository pr ++ [mergeCall issue pr owner repository]).
Proof.
  intros H. unfold runDecision. rewrite H.
  destruct (client _ w) as [r w']. by exists r, w'.
Qed.

Lemma runDecision_not_eligible :
  eligible requiredContexts prStatusMap = false →
  runDecision client w issue pr owner repository requiredContexts prStatusMap
  = (None, w, fetchCalls owner repository pr).
Proof. intros H. unfold runDecision. by rewrite H. Qed.

Lemma runDecision_mergeCalled :
  mergeCalled (runDecision client w issue pr owner repository
                           requiredContexts prStatusMap).2
  = eligible requiredContexts prStatusMap.
Proof.
  destruct (eligible requiredContexts prStatusMap) eqn:H.
  - destruct (runDecision_eligible H) as (r & w' & _ & ->). done.
  - by rewrite runDecision_not_eligible.
Qed.

Lemma runDecision_error :
  let res := (runDecision client w issue pr owner repository
                          requiredContexts prStatusMap).1.1 in
  res = None
  ∨ ∃ err, client (mergeCall issue pr owner repository) w = (Err err, (client (mergeCall issue pr owner repository) w).2)
           ∧ res = Some (Wrap err ("failed to merge pull request "
                                   +:+ Issue_GetHTMLURL issue)).
Proof.
  cbn zeta. destruct (eligible requiredContexts prStatusMap) eqn:H.
  - destruct (runDecision_eligible H) as (r & w' & Hr & ->). rewrite Hr. cbn.
    destruct r as [|err]; [by left|right]. by exists err.
  - rewrite runDecision_not_eligible by done. by left.
Qed.

End Decision.

(** ** The policies of [mergePR] *)

(** C1. With a non-empty list of required contexts, [mergePR] calls the
    merge operation exactly when every required context is a key of the
    aggregated status map with value true; when some required context is
    missing from the map or false in it, [mergePR] returns nil without
    calling the merge operation, whatever else the map holds.  The
    decision taken on an arbitrary map is the same test. *)
Theorem mergePR_required_contexts_policy {W} (client : Client W) (w w' : W)
    (issue : Issue) (pr : PullRequest) (owner repository commitSHA : string)
    (config : RepoConfig) (statuses : CombinedStatus) (prChecks : ListCheckRunsResults)
    (requiredContexts : list string) :
  passesGates issue pr commitSHA config →
  fetches client w owner repository pr statuses prChecks (Ok requiredContexts) w' →
  requiredContexts ≠ [] →
  let prStatusMap := prStatusMapOf statuses prChecks in
  let '(err, _, calls) := run client (mergePR issue pr owner repository commitSHA config) w in
  (mergeCalled calls = true
   ↔ ∀ context, context ∈ requiredContexts → prStatusMap !! context = Some true)
  ∧ (∀ context,
       context ∈ requiredContexts →
       prStatusMap !! context = None ∨ prStatusMap !! context = Some false →
       err = None ∧ mergeCalled calls = false)
  ∧ (∀ S : gmap string bool,
       eligible requiredContexts S = true
       ↔ ∀ context, context ∈ requiredContexts → S !! context = Some true).
Proof.
  intros Hgates Hfetch Hne prStatusMap.
  rewrite (run_mergePR_fetched client _ _ _ _ _ _ _ _ _ _ Hgates _ Hfetch).
  fold prStatusMap.
  pose proof (runDecision_mergeCalled client w' issue pr owner repository
                requiredContexts prStatusMap) as Hcalled.
  pose proof (runDecision_not_eligible client w' issue pr owner repository
                requiredContexts prStatusMap) as Hskip.
  destruct (runDecision _ _ _ _ _ _ _ _) as [[err w''] calls]. cbn [snd] in Hcalled.
  split_and!.
  - rewrite Hcalled. by apply eligible_required.
  - intros context Hin Hbad.
    pose proof (eligible_false_required _ _ _ Hin Hbad) as Hfalse.
    specialize (Hskip Hfalse). split; [congruence|]. by rewrite Hcalled.
  - intros S. by apply eligible_required.
Qed.

Lemma mergePR_required_contexts_policy_witness :
  passesGates (Sample.issue 7) (Sample.pr 7 "abc") "" Sample.config
  ∧ fetches (forgeClient Sample.missingTest) [] "o" "r" (Sample.pr 7 "abc")
            {| Statuses := [Sample.status "ci/build" "success"] |} {| CheckRuns := [] |}
            (Ok ["ci/build"; "ci/test"]) []
  ∧ ["ci/build"; "ci/test"] ≠ []
  ∧ (run (forgeClient Sample.missingTest)
         (mergePR (Sample.issue 7) (Sample.pr 7 "abc") "o" "r" "" Sample.config) []).1.1
    = None
  ∧ mergeCalled
      (run (forgeClient Sample.missingTest)
           (mergePR (Sample.issue 7) (Sample.pr 7 "abc") "o" "r" "" Sample.config) []).2
    = false.
Proof.
  assert (Hgates : passesGates (Sample.issue 7) (Sample.pr 7 "abc") "" Sample.config)
    by (split; [reflexivity|by left]).
  assert (Hfetch : fetches (forgeClient Sample.missingTest) [] "o" "r" (Sample.pr 7 "abc")
            {| Statuses := [Sample.status "ci/build" "success"] |} {| CheckRuns := [] |}
            (Ok ["ci/build"; "ci/test"]) [])
    by (exists [], []; split_and!; reflexivity).
  assert (Hne : ["ci/build"; "ci/test"] ≠ ([] : list string)) by discriminate.
  refine (conj Hgates (conj Hfetch (conj Hne _))).
  pose proof (mergePR_required_contexts_policy (forgeClient Sample.missingTest) [] []
                _ _ _ _ "" _ _ _ _ Hgates Hfetch Hne) as H.
  cbv zeta in H.
  destruct (run _ _ []) as [[err merged] calls].
  destruct H as (_ & Hskip & _).
  apply (Hskip "ci/test").
  - apply list_elem_of_In. right. by left.
  - left. vm_compute. reflexivity.
Defined.


(** C2. With no required contexts (an empty list, or no branch protection
    at all), [mergePR] calls the merge operation exactly when every entry
    of the aggregated status map is true: an empty map merges, a single
    false entry makes [mergePR] return nil without merging. *)
Theorem mergePR_no_required_contexts_policy {W} (client : Client W) (w w' : W)
    (issue : Issue) (pr : PullRequest) (owner repository commitSHA : string)
    (config : RepoConfig) (statuses : CombinedStatus) (prChecks : ListCheckRunsResults)
    (required : result (list string)) :
  passesGates issue pr commitSHA config →
  fetches client w owner repository pr statuses prChecks required w' →
  required = Ok [] ∨ (∃ msg, required = Err (ErrorResponse StatusNotFound msg)) →
  let prStatusMap := prStatusMapOf statuses prChecks in
  let '(err, _, calls) := run client (mergePR issue pr owner repository commitSHA config) w in
  (mergeCalled calls = true ↔ ∀ context b, prStatusMap !! context = Some b → b = true)
  ∧ (prStatusMap = ∅ → mergeCalled calls = true)
  ∧ (∀ context, prStatusMap !! context = Some false → err = None ∧ mergeCalled calls = false)
  ∧ (∀ S : gmap string bool,
       eligible [] S = true ↔ ∀ context b, S !! context = Some b → b = true).
Proof.
  intros Hgates Hfetch Hnone prStatusMap.
  rewrite (run_mergePR_fetched client _ _ _ _ _ _ _ _ _ _ Hgates _ Hfetch).
  fold prStatusMap.
  assert (match required with
          | Ok requiredContexts =>
              runDecision client w' issue pr owner repository requiredContexts prStatusMap
          | Err err =>
              if bool_decide (asErrorResponse err = Some StatusNotFound)
              then runDecision client w' issue pr owner repository [] prStatusMap
              else (Some (Wrap err ("failed to get target branch (" +:+ baseRef pr
                                    +:+ ") protection for pull request "
                                    +:+ Issue_GetHTMLURL issue)),
                    w', fetchCalls owner repository pr)
          end = runDecision client w' issue pr owner repository [] prStatusMap) as ->.
  { destruct Hnone as [->|[msg ->]]; [done|]. cbn. by rewrite bool_decide_eq_true_2. }
  pose proof (runDecision_mergeCalled client w' issue pr owner repository
                [] prStatusMap) as Hcalled.
  pose proof (runDecision_not_eligible client w' issue pr owner repository
                [] prStatusMap) as Hskip.
  destruct (runDecision _ _ _ _ _ _ _ _) as [[err w''] calls]. cbn [snd] in Hcalled.
  rewrite Hcalled. split_and!.
  - apply eligible_nil.
  - intros Hempty. apply eligible_nil. intros context b. by rewrite Hempty.
  - intros context Hfalse.
    assert (eligible [] prStatusMap = false) as Hel.
    { apply not_true_is_false. intros Hel.
      by pose proof (proj1 (eligible_nil _) Hel _ _ Hfalse). }
    split; [|done]. specialize (Hskip Hel). congruence.
  - intros S. apply eligible_nil.
Qed.

Lemma mergePR_no_required_contexts_policy_witness :
  passesGates (Sample.issue 7) (Sample.pr 7 "abc") "" Sample.config
  ∧ fetches (forgeClient Sample.unprotected) [] "o" "r" (Sample.pr 7 "abc")
            Sample.threeStatuses {| CheckRuns := [] |} Sample.notProtected []
  ∧ (Sample.notProtected = Ok []
     ∨ ∃ msg, Sample.notProtected = Err (ErrorResponse StatusNotFound msg))
  ∧ mergeCalled
      (run (forgeClient Sample.unprotected)
           (mergePR (Sample.issue 7) (Sample.pr 7 "abc") "o" "r" "" Sample.config) []).2
    = true.
Proof.
  assert (Hgates : passesGates (Sample.issue 7) (Sample.pr 7 "abc") "" Sample.config)
    by (split; [reflexivity|by left]).
  assert (Hfetch : fetches (forgeClient Sample.unprotected) [] "o" "r" (Sample.pr 7 "abc")
            Sample.threeStatuses {| CheckRuns := [] |} Sample.notProtected [])
    by (exists [], []; split_and!; reflexivity).
  assert (Hnone : Sample.notProtected = Ok []
                  ∨ ∃ msg, Sample.notProtected = Err (ErrorResponse StatusNotFound msg))
    by (right; eexists; reflexivity).
  refine (conj Hgates (conj Hfetch (conj Hnone _))).
  pose proof (mergePR_no_required_contexts_policy (forgeClient Sample.unprotected) [] []
                _ _ _ _ "" _ _ _ _ Hgates Hfetch Hnone) as H.
  cbv zeta in H.
  destruct (run _ _ []) as [[err merged] calls].
  destruct H as (Hiff & _).
  apply Hiff. intros context b.
  unfold prStatusMapOf, addStatuses, addCheckRuns. cbn.
  rewrite !lookup_insert.
  repeat case_decide; rewrite ?lookup_empty; vm_compute; congruence.
Defined.

(** C5. When the lookup of the required status check contexts fails with
    a "not found" response (status 404), [mergePR] does not return that
    error: it goes on as with an empty list of required contexts, so it
    merges exactly when every entry of the aggregated map is true and
    returns nil or the failure of the merge call.  With any other error
    of the lookup it returns that error wrapped, without merging. *)
Theorem mergePR_required_contexts_lookup_error {W} (client : Client W) (w w' : W)
    (issue : Issue) (pr : PullRequest) (owner repository commitSHA : string)
    (config : RepoConfig) (statuses : CombinedStatus) (prChecks : ListCheckRunsResults)
    (err : error) :
  passesGates issue pr commitSHA config →
  fetches client w owner repository pr statuses prChecks (Err err) w' →
  let prStatusMap := prStatusMapOf statuses prChecks in
  let outcome := run client (mergePR issue pr owner repository commitSHA config) w in
  (asErrorResponse err = Some StatusNotFound →
   outcome = runDecision client w' issue pr owner repository [] prStatusMap
   ∧ (mergeCalled outcome.2 = true
      ↔ ∀ context b, prStatusMap !! context = Some b → b = true)
   ∧ (outcome.1.1 = None
      ∨ ∃ mergeErr,
          client (mergeCall issue pr owner repository) w'
          = (Err mergeErr, (client (mergeCall issue pr owner repository) w').2)
          ∧ outcome.1.1 = Some (Wrap mergeErr ("failed to merge pull request "
                                               +:+ Issue_GetHTMLURL issue))))
  ∧ (asErrorResponse err ≠ Some StatusNotFound →
     outcome = (Some (Wrap err ("failed to get target branch (" +:+ baseRef pr
                                +:+ ") protection for pull request "
                                +:+ Issue_GetHTMLURL issue)),
                w', fetchCalls owner repository pr)
     ∧ mergeCalled outcome.2 = false).
Proof.
  intros Hgates Hfetch prStatusMap outcome. subst outcome.
  rewrite (run_mergePR_fetched client _ _ _ _ _ _ _ _ _ _ Hgates _ Hfetch).
  fold prStatusMap. split.
  - intros Hnf. rewrite bool_decide_eq_true_2 by done. split_and!.
    + done.
    + rewrite runDecision_mergeCalled. apply eligible_nil.
    + apply runDecision_error.
  - intros Hother. by rewrite bool_decide_eq_false_2.
Qed.

Lemma mergePR_required_contexts_lookup_error_witness :
  (passesGates (Sample.issue 7) (Sample.pr 7 "abc") "" Sample.config
   ∧ fetches (forgeClient Sample.forbidden) [] "o" "r" (Sample.pr 7 "abc")
             {| Statuses := [Sample.status "ci/build" "success"] |} {| CheckRuns := [] |}
             (Err (ErrorResponse 403 "Forbidden")) []
   ∧ asErrorResponse (ErrorResponse 403 "Forbidden") ≠ Some StatusNotFound
   ∧ run (forgeClient Sample.forbidden)
         (mergePR (Sample.issue 7) (Sample.pr 7 "abc") "o" "r" "" Sample.config) []
     = (Some (Wrap (ErrorResponse 403 "Forbidden")
                   "failed to get target branch (master) protection for pull request https://github.com/o/r/pull/7"),
        [], fetchCalls "o" "r" (Sample.pr 7 "abc")))
  ∧ (fetches (forgeClient Sample.unprotected) [] "o" "r" (Sample.pr 7 "abc")
             Sample.threeStatuses {| CheckRuns := [] |}
             (Err (ErrorResponse 404 "Branch not protected")) []
     ∧ asErrorResponse (ErrorResponse 404 "Branch not protected") = Some StatusNotFound
     ∧ run (forgeClient Sample.unprotected)
           (mergePR (Sample.issue 7) (Sample.pr 7 "abc") "o" "r" "" Sample.config) []
       = (None, [7],
          fetchCalls "o" "r" (Sample.pr 7 "abc")
          ++ [PullRequests_Merge "o" "r" 7 "" "abc"])).
Proof.
  assert (Hgates : passesGates (Sample.issue 7) (Sample.pr 7 "abc") "" Sample.config)
    by (split; [reflexivity|by left]).
  assert (Hfetch : fetches (forgeClient Sample.forbidden) [] "o" "r" (Sample.pr 7 "abc")
            {| Statuses := [Sample.status "ci/build" "success"] |} {| CheckRuns := [] |}
            (Err (ErrorResponse 403 "Forbidden")) [])
    by (exists [], []; split_and!; reflexivity).
  assert (Hother : asErrorResponse (ErrorResponse 403 "Forbidden") ≠ Some StatusNotFound)
    by discriminate.
  assert (Hfetch' : fetches (forgeClient Sample.unprotected) [] "o" "r" (Sample.pr 7 "abc")
            Sample.threeStatuses {| CheckRuns := [] |}
            (Err (ErrorResponse 404 "Branch not protected")) [])
    by (exists [], []; split_and!; reflexivity).
  split.
  - refine (conj Hgates (conj Hfetch (conj Hother _))).
    exact (proj1 (proj2 (mergePR_required_contexts_lookup_error
                           (forgeClient Sample.forbidden) [] [] _ _ _ _ "" _ _ _ _
                           Hgates Hfetch) Hother)).
  - refine (conj Hfetch' (conj eq_refl _)).
    rewrite (proj1 (proj1 (mergePR_required_contexts_lookup_error
                             (forgeClient Sample.unprotected) [] [] _ _ _ _ "" _ _ _ _
                             Hgates Hfetch') eq_refl)).
    vm_compute. reflexivity.
Defined.

(** ** The gates of [mergePR] *)

Lemma mergePR_everyCall (issue : Issue) (pr : PullRequest)
    (owner repository commitSHA : string) (config : RepoConfig) :
  everyCall (fun op => isMerge op = true → op = mergeCall issue pr owner repository)
            (mergePR issue pr owner repository commitSHA config).
Proof.
  unfold mergePR, mergeCall, headSHA.
  destruct (negb (containsLabel _ _)); [done|].
  destruct (_ && _); [done|].
  cbn. split; [done|]. intros [statuses|?]; [|done].
  cbn. split; [done|]. intros [prChecks|?]; [|done].
  cbn. split; [done|]. intros [requiredContexts|err]; cbn.
  - destruct (eligible _ _); [|done]. cbn. split; [done|]. by intros [|].
  - destruct (match asErrorResponse err with Some _ => _ | None => _ end); [done|].
    destruct (eligible _ _); [|done]. cbn. split; [done|]. by intros [|].
Qed.

(** C4. Whatever the client answers, every merge call of [mergePR] is for
    the head SHA of the pull request it was given; and with a pinned
    commit SHA that is not empty and differs from the head SHA, [mergePR]
    returns nil at once: it makes no call at all, so no status fetch, no
    lookup of required contexts and no merge. *)
Theorem mergePR_merges_head_only {W} (client : Client W) (w : W)
    (issue : Issue) (pr : PullRequest) (owner repository commitSHA : string)
    (config : RepoConfig) :
  Forall (fun op =>
            isMerge op = true →
            op = PullRequests_Merge owner repository (Issue_GetNumber issue) ""
                                    (PullRequestBranch_GetSHA (PullRequest_Head pr)))
         (run client (mergePR issue pr owner repository commitSHA config) w).2
  ∧ (commitSHA ≠ "" →
     PullRequestBranch_GetSHA (PullRequest_Head pr) ≠ commitSHA →
     mergePR issue pr owner repository commitSHA config = Ret None
     ∧ run client (mergePR issue pr owner repository commitSHA config) w = (None, w, [])).
Proof.
  split.
  - apply everyCall_run, mergePR_everyCall.
  - intros Hpinned Hstale. by rewrite mergePR_stale.
Qed.

Lemma mergePR_merges_head_only_witness :
  "stale" ≠ ""
  ∧ PullRequestBranch_GetSHA (PullRequest_Head (Sample.pr 7 "abc")) ≠ "stale"
  ∧ run (forgeClient Sample.unprotected)
        (mergePR (Sample.issue 7) (Sample.pr 7 "abc") "o" "r" "stale" Sample.config) []
    = (None, [], []).
Proof.
  assert (Hpinned : "stale" ≠ "") by discriminate.
  assert (Hstale : PullRequestBranch_GetSHA (PullRequest_Head (Sample.pr 7 "abc")) ≠ "stale")
    by discriminate.
  refine (conj Hpinned (conj Hstale _)).
  exact (proj2 (proj2 (mergePR_merges_head_only (forgeClient Sample.unprotected) []
                         (Sample.issue 7) (Sample.pr 7 "abc") "o" "r" "stale"
                         Sample.config) Hpinned Hstale)).
Defined.

(** The gate is closed exactly when no label of the issue has the name
    looked for. *)
Lemma containsLabel_false (labels : list Label) (label : string) :
  containsLabel labels label = false
  ↔ ∀ l, l ∈ labels → Label_GetName l ≠ label.
Proof.
  unfold containsLabel. induction labels as [|l rest IH]; cbn.
  - split; [|done]. intros _ l Hl. inversion Hl.
  - rewrite orb_false_iff, IH, bool_decide_eq_false. split.
    + intros [Hl Hrest] l' Hin. inversion Hin; subst; eauto.
    + intros H. split; [apply H; left|intros l' Hin; apply H; by right].
Qed.

(** C9. When [containsLabel] does not find the configured approved label
    among the labels of the issue, [mergePR] returns nil before it makes
    any call: no status is aggregated, no required context looked up,
    nothing merged, and no error is returned. *)
Theorem mergePR_label_gate (issue : Issue) (pr : PullRequest)
    (owner repository commitSHA : string) (config : RepoConfig) :
  containsLabel (Issue_Labels issue) (Approved (Labels config)) = false →
  mergePR issue pr owner repository commitSHA config = Ret None
  ∧ ∀ W (client : Client W) (w : W),
      run client (mergePR issue pr owner repository commitSHA config) w = (None, w, []).
Proof. intros Hlabels. by rewrite mergePR_unlabelled. Qed.

Lemma mergePR_label_gate_witness :
  containsLabel (Issue_Labels Sample.unlabelled) (Approved (Labels Sample.config)) = false
  ∧ mergePR Sample.unlabelled (Sample.pr 7 "abc") "o" "r" "" Sample.config = Ret None.
Proof.
  refine (conj eq_refl _).
  exact (proj1 (mergePR_label_gate Sample.unlabelled (Sample.pr 7 "abc") "o" "r" ""
                                   Sample.config eq_refl)).
Defined.

(** ** Event dispatch *)

(** C8. With an empty approved-label name in the configuration,
    [HandleEvent] returns nil at once for every event: its program is the
    bare return, so no run of it calls the merge operation or any other
    operation of the client. *)
Theorem HandleEvent_disabled (eventObject : Event) (config : RepoConfig) :
  Approved (Labels config) = "" →
  HandleEvent eventObject config = Ret None
  ∧ ∀ W (client : Client W) (w : W),
      run client (HandleEvent eventObject config) w = (None, w, []).
Proof. intros Hempty. unfold HandleEvent. by rewrite bool_decide_eq_true_2. Qed.

Lemma HandleEvent_disabled_witness :
  Approved (Labels {| Labels := {| Approved := "" |} |}) = ""
  ∧ HandleEvent (EvPullRequest (Sample.pullRequestEvent "labeled"))
                {| Labels := {| Approved := "" |} |}
    = Ret None.
Proof.
  refine (conj eq_refl _).
  exact (proj1 (HandleEvent_disabled (EvPullRequest (Sample.pullRequestEvent "labeled"))
                                     {| Labels := {| Approved := "" |} |} eq_refl)).
Defined.

(** C7. An event whose trigger field, lowered, is not the expected
    trigger string is dropped: a pull request event whose action is not
    "labeled", a review event whose review state is not "approved" and a
    status event whose state is not "success" make [HandleEvent] return
    nil without any call on the client. *)
Theorem HandleEvent_trigger_mismatch (config : RepoConfig) :
  (∀ event : PullRequestEvent,
     ToLower (PullRequestEvent_GetAction event) ≠ "labeled" →
     HandleEvent (EvPullRequest event) config = Ret None)
  ∧ (∀ event : PullRequestReviewEvent,
       ToLower (PullRequestReview_GetState (PullRequestReviewEvent_Review event))
       ≠ "approved" →
       HandleEvent (EvPullRequestReview event) config = Ret None)
  ∧ (∀ event : StatusEvent,
       ToLower (StatusEvent_GetState event) ≠ "success" →
       HandleEvent (EvStatus event) config = Ret None).
Proof.
  unfold HandleEvent. split_and!; intros event Hmismatch;
    (destruct (bool_decide (Approved (Labels config) = "")); [done|]).
  - unfold handlePullRequestEvent.
    by rewrite (bool_decide_eq_false_2 (_ = labeledEvent)).
  - unfold handlePullRequestReviewEvent.
    by rewrite (bool_decide_eq_false_2 (_ = approvedReviewState)).
  - unfold handleStatusEvent.
    by rewrite (bool_decide_eq_false_2 (_ = statusEventSuccessState)).
Qed.

Lemma HandleEvent_trigger_mismatch_witness :
  (ToLower (PullRequestEvent_GetAction (Sample.pullRequestEvent "Opened")) ≠ "labeled"
   ∧ HandleEvent (EvPullRequest (Sample.pullRequestEvent "Opened")) Sample.config
     = Ret None)
  ∧ (ToLower (PullRequestReview_GetState
                (PullRequestReviewEvent_Review (Sample.reviewEvent "commented")))
     ≠ "approved"
     ∧ HandleEvent (EvPullRequestReview (Sample.reviewEvent "commented")) Sample.config
       = Ret None)
  ∧ (ToLower (StatusEvent_GetState (Sample.statusEvent "PENDING")) ≠ "success"
     ∧ HandleEvent (EvStatus (Sample.statusEvent "PENDING")) Sample.config = Ret None).
Proof.
  pose proof (HandleEvent_trigger_mismatch Sample.config) as (Hpr & Hreview & Hstatus).
  assert (H1 : ToLower (PullRequestEvent_GetAction (Sample.pullRequestEvent "Opened"))
               ≠ "labeled") by discriminate.
  assert (H2 : ToLower (PullRequestReview_GetState
                          (PullRequestReviewEvent_Review (Sample.reviewEvent "commented")))
               ≠ "approved") by discriminate.
  assert (H3 : ToLower (StatusEvent_GetState (Sample.statusEvent "PENDING")) ≠ "success")
    by discriminate.
  exact (conj (conj H1 (Hpr _ H1)) (conj (conj H2 (Hreview _ H2)) (conj H3 (Hstatus _ H3)))).
Defined.

(** The comparison is case-insensitive: a status event "SUCCESS" goes on
    to the search, and the conflict on pull request 7 does not keep pull
    request 8 from being merged. *)
Example HandleEvent_uppercase_trigger :
  run (forgeClient Sample.twoPullRequests)
      (HandleEvent (EvStatus (Sample.statusEvent "SUCCESS")) Sample.config) []
  = (Some (Wrap Sample.conflict "failed to merge pull request https://github.com/o/r/pull/7"),
     [8],
     [Search_Issues "type:pr state:open repo:o/r abc"; PullRequests_Get "o" "r" 7]
     ++ fetchCalls "o" "r" (Sample.pr 7 "abc")
     ++ [PullRequests_Merge "o" "r" 7 "" "abc"; PullRequests_Get "o" "r" 8]
     ++ fetchCalls "o" "r" (Sample.pr 8 "abc")
     ++ [PullRequests_Merge "o" "r" 8 "" "abc"]).
Proof. vm_compute. reflexivity. Qed.

(** ** The fan-out of a commit status event *)

Section FanOut.

Context {W : Type} (client : Client W).
Variables (event : StatusEvent) (config : RepoConfig).

Lemma Combine_None_r (err : option error) : Combine err None = err.
Proof. by destruct err. Qed.

Lemma Errors_Combine (a b : option error) : Errors (Combine a b) = Errors a ++ Errors b.
Proof. destruct a, b; cbn; by rewrite ?app_nil_r. Qed.

Lemma Errors_fold_Combine (errs : list (option error)) (acc : option error) :
  Errors (fold_left Combine errs acc) = Errors acc ++ List.concat (map Errors errs).
Proof.
  revert acc. induction errs as [|err errs IH]; intros acc; cbn.
  - by rewrite app_nil_r.
  - by rewrite IH, Errors_Combine, <- app_assoc.
Qed.

Lemma run_handleStatusEvent_range (issues : list Issue) (multiErr : option error) (w : W) :
  run client (handleStatusEvent_range event (StatusEvent_GetSHA event) config
                                      issues multiErr) w
  = let '(errs, w', calls) :=
      attemptAll client event config (List.filter isPullRequest issues) w in
    (fold_left Combine errs multiErr, w', calls).
Proof.
  revert multiErr w. induction issues as [|issue rest IH]; intros multiErr w; [done|].
  cbn [handleStatusEvent_range List.filter]. unfold isPullRequest at 1.
  destruct (Issue_PullRequestLinks issue) as [links|]; [|apply IH].
  cbn [attemptAll attemptPR run].
  destruct (client _ w) as [[pr|err] w1].
  - rewrite run_bind.
    destruct (run client (mergePR _ _ _ _ _ _) w1) as [[err w2] calls1].
    assert (run client
              match err with
              | Some _ => handleStatusEvent_range event (StatusEvent_GetSHA event) config
                                                  rest (Combine multiErr err)
              | None => handleStatusEvent_range event (StatusEvent_GetSHA event) config
                                                rest multiErr
              end w2
            = run client (handleStatusEvent_range event (StatusEvent_GetSHA event) config
                                                  rest (Combine multiErr err)) w2) as ->.
    { destruct err; [done|]. by rewrite Combine_None_r. }
    rewrite IH.
    by destruct (attemptAll _ _ _ _ w2) as [[errs w3] calls2].
  - cbn [run]. rewrite IH.
    by destruct (attemptAll _ _ _ _ w1) as [[errs w3] calls2].
Qed.

Lemma mergePR_no_lookup (issue : Issue) (pr : PullRequest)
    (owner repository commitSHA : string) :
  everyCall (fun op => isPullRequestsGet op = false)
            (mergePR issue pr owner repository commitSHA config).
Proof.
  unfold mergePR.
  destruct (negb (containsLabel _ _)); [done|].
  destruct (_ && _); [done|].
  cbn. split; [done|]. intros [statuses|?]; [|done].
  cbn. split; [done|]. intros [prChecks|?]; [|done].
  cbn. split; [done|]. intros [requiredContexts|err]; cbn.
  - destruct (eligible _ _); [|done]. cbn. split; [done|]. by intros [|].
  - destruct (match asErrorResponse err with Some _ => _ | None => _ end); [done|].
    destruct (eligible _ _); [|done]. cbn. split; [done|]. by intros [|].
Qed.

Lemma filter_none (calls : list Op) :
  Forall (fun op => isPullRequestsGet op = false) calls →
  List.filter isPullRequestsGet calls = [].
Proof. induction 1 as [|op calls Hop _ IH]; cbn; [done|]. by rewrite Hop. Qed.

Lemma attemptAll_lookups (issues : list Issue) (w : W) :
  let '(errs, _, calls) := attemptAll client event config issues w in
  List.length errs = List.length issues
  ∧ List.filter isPullRequestsGet calls
    = map (fun issue =>
             PullRequests_Get (User_GetLogin (Repository_Owner (StatusEvent_Repo event)))
                              (Repository_GetName (StatusEvent_Repo event))
                              (Issue_GetNumber issue)) issues.
Proof.
  revert w. induction issues as [|issue rest IH]; intros w; [done|].
  cbn [attemptAll attemptPR run].
  destruct (client _ w) as [[pr|err] w1].
  - pose proof (everyCall_run client _ _ w1
                  (mergePR_no_lookup issue pr
                     (User_GetLogin (Repository_Owner (StatusEvent_Repo event)))
                     (Repository_GetName (StatusEvent_Repo event))
                     (StatusEvent_GetSHA event))) as Hnone.
    destruct (run client (mergePR _ _ _ _ _ _) w1) as [[err w2] calls1].
    specialize (IH w2). destruct (attemptAll _ _ _ _ w2) as [[errs w3] calls2].
    destruct IH as [Hlen Hcalls]. cbn [snd] in Hnone. split; [cbn; by rewrite Hlen|].
    cbn [app List.filter isPullRequestsGet map].
    by rewrite List.filter_app, (filter_none _ Hnone), Hcalls.
  - cbn [run]. specialize (IH w1). destruct (attemptAll _ _ _ _ w1) as [[errs w3] calls2].
    destruct IH as [Hlen Hcalls]. split; [cbn; by rewrite Hlen|].
    cbn [app List.filter isPullRequestsGet map]. by rewrite Hcalls.
Qed.


End FanOut.

(** C6. A commit status event that reports success and whose search
    succeeds makes [handleStatusEvent] attempt every pull request of the
    search result in turn, each from the world its predecessor left,
    whether or not an earlier lookup or merge failed: there is one lookup
    call per pull request, in the order of the search result, and the
    error returned after the loop is the aggregate of the outcomes of all
    attempts. *)
Theorem handleStatusEvent_attempts_every_pull_request {W} (client : Client W) (w w1 : W)
    (event : StatusEvent) (config : RepoConfig) (searchResult : IssuesSearchResult) :
  ToLower (StatusEvent_GetState event) = "success" →
  client (Search_Issues (searchQuery event)) w = (Ok searchResult, w1) →
  let pullRequests := List.filter isPullRequest (Issues searchResult) in
  let '(errs, w2, calls) := attemptAll client event config pullRequests w1 in
  run client (handleStatusEvent event config) w
  = (fold_left Combine errs None, w2, Search_Issues (searchQuery event) :: calls)
  ∧ List.length errs = List.length pullRequests
  ∧ List.filter isPullRequestsGet calls
    = map (fun issue =>
             PullRequests_Get (User_GetLogin (Repository_Owner (StatusEvent_Repo event)))
                              (Repository_GetName (StatusEvent_Repo event))
                              (Issue_GetNumber issue)) pullRequests
  ∧ Errors (fold_left Combine errs None) = List.concat (map Errors errs).
Proof.
  intros Hstate Hsearch pullRequests.
  pose proof (attemptAll_lookups client event config pullRequests w1) as Hall.
  pose proof (run_handleStatusEvent_range client event config
                (Issues searchResult) None w1) as Hrange.
  fold pullRequests in Hrange.
  destruct (attemptAll _ _ _ _ w1) as [[errs w2] calls].
  destruct Hall as [Hlen Hcalls]. split_and!; [|done|done|].
  - unfold handleStatusEvent.
    rewrite (bool_decide_eq_true_2 (_ = statusEventSuccessState)) by done.
    cbn [negb run]. fold (searchQuery event). rewrite Hsearch. by rewrite Hrange.
  - by rewrite Errors_fold_Combine.
Qed.

Lemma handleStatusEvent_attempts_every_pull_request_witness :
  ToLower (StatusEvent_GetState (Sample.statusEvent "success")) = "success"
  ∧ forgeClient Sample.twoPullRequests
      (Search_Issues (searchQuery (Sample.statusEvent "success"))) []
    = (Ok {| Issues := [Sample.issue 7; Sample.plainIssue 9; Sample.issue 8] |}, [])
  ∧ run (forgeClient Sample.twoPullRequests)
        (handleStatusEvent (Sample.statusEvent "success") Sample.config) []
    = (Some (Wrap Sample.conflict
                  "failed to merge pull request https://github.com/o/r/pull/7"),
       [8],
       [Search_Issues "type:pr state:open repo:o/r abc"; PullRequests_Get "o" "r" 7]
       ++ fetchCalls "o" "r" (Sample.pr 7 "abc")
       ++ [PullRequests_Merge "o" "r" 7 "" "abc"; PullRequests_Get "o" "r" 8]
       ++ fetchCalls "o" "r" (Sample.pr 8 "abc")
       ++ [PullRequests_Merge "o" "r" 8 "" "abc"]).
Proof.
  refine (conj eq_refl (conj eq_refl _)).
  pose proof (handleStatusEvent_attempts_every_pull_request
                (forgeClient Sample.twoPullRequests) [] []
                (Sample.statusEvent "success") Sample.config _ eq_refl eq_refl) as H.
  cbv zeta in H.
  destruct (attemptAll _ _ _ _ []) as [[errs merged] calls] eqn:Hall.
  destruct H as (-> & _).
  vm_compute in Hall. by injection Hall as <- <- <-.
Defined.


(** ** Check runs and legacy statuses in the aggregated map *)

(** C3, as stated, fails when several check runs carry the same name: a
    legacy status "ci/build", a failed check run "ci/build" and its
    successful second run leave the entry true, which is not the success
    flag of the failed check run. *)
Lemma checkRun_overrides_status_counterexample :
  ¬ (∀ (statuses : CombinedStatus) (prChecks : ListCheckRunsResults)
       (status : RepoStatus) (check : CheckRun),
       status ∈ Statuses statuses →
       check ∈ CheckRuns prChecks →
       RepoStatus_GetContext status = CheckRun_Name check →
       prStatusMapOf statuses prChecks !! CheckRun_Name check
       = Some (checkSucceeded check)).
Proof.
  intros H.
  specialize (H {| Statuses := [Sample.status "ci/build" "success"] |} Sample.rerun
                (Sample.status "ci/build" "success")
                (Sample.check "ci/build" (Some "failure"))).
  assert (Some true = Some false) as Habsurd; [|discriminate].
  apply H; [by left|by left|reflexivity].
Qed.

(** C3, amended. When some check run of the commit is named C, the entry
    of C in the aggregated map is the success flag (conclusion equal to
    "success") of the last check run named C, whatever the legacy
    statuses are, and so also when a legacy status has context C: a
    check run always overwrites the value derived from a status. *)
Theorem checkRun_overrides_status (statuses : CombinedStatus)
    (prChecks : ListCheckRunsResults) (context : string) :
  Exists (fun check => CheckRun_Name check = context) (CheckRuns prChecks) →
  ∃ before check after,
    CheckRuns prChecks = before ++ check :: after
    ∧ CheckRun_Name check = context
    ∧ Forall (fun later => CheckRun_Name later ≠ context) after
    ∧ prStatusMapOf statuses prChecks !! context = Some (checkSucceeded check).
Proof.
  intros Hex.
  destruct (split_last_check _ _ Hex) as (before & check & after & Hsplit & Hname & Hafter).
  exists before, check, after. rewrite <- Hname in *. split_and!; [done..|].
  unfold prStatusMapOf. rewrite Hsplit. by apply addCheckRuns_last.
Qed.

Lemma checkRun_overrides_status_witness :
  Exists (fun check => CheckRun_Name check = "ci/build") (CheckRuns Sample.rerun)
  ∧ prStatusMapOf {| Statuses := [Sample.status "ci/build" "failure"] |} Sample.rerun
    !! "ci/build"
    = Some true.
Proof.
  assert (Hex : Exists (fun check => CheckRun_Name check = "ci/build")
                       (CheckRuns Sample.rerun)) by (by left).
  refine (conj Hex _).
  destruct (checkRun_overrides_status
              {| Statuses := [Sample.status "ci/build" "failure"] |} Sample.rerun
              "ci/build" Hex)
    as (before & check & after & Hsplit & Hname & Hafter & ->).
  f_equal. cbn in Hsplit.
  destruct before as [|c1 before]; cbn in Hsplit.
  - injection Hsplit as <- <-. apply Forall_inv in Hafter. by destruct Hafter.
  - destruct before as [|c2 before]; cbn in Hsplit.
    + by injection Hsplit as _ <- _.
    + injection Hsplit as _ _ Hnil. by destruct before.
Defined.

(** ** Check runs that have not concluded *)

(** C10, as stated, fails under the required-contexts policy: with
    "ci/build" required and successful, a check run "lint" without a
    conclusion puts a false entry into the map, and the pull request is
    merged all the same. *)
Lemma in_progress_check_counterexample :
  ¬ (∀ W (client : Client W) (w w' : W) (issue : Issue) (pr : PullRequest)
       (owner repository commitSHA : string) (config : RepoConfig)
       (statuses : CombinedStatus) (prChecks : ListCheckRunsResults)
       (required : result (list string)) (check : CheckRun),
       passesGates issue pr commitSHA config →
       fetches client w owner repository pr statuses prChecks required w' →
       check ∈ CheckRuns prChecks →
       CheckRun_Conclusion check = None →
       prStatusMapOf statuses prChecks !! CheckRun_Name check = Some false
       ∧ mergeCalled (run client (mergePR issue pr owner repository commitSHA config) w).2
         = false).
Proof.
  intros H.
  destruct (H _ (forgeClient Sample.lintPending) [] [] (Sample.issue 7) (Sample.pr 7 "abc")
              "o" "r" "" Sample.config
              {| Statuses := [Sample.status "ci/build" "success"] |}
              {| CheckRuns := [Sample.check "lint" None] |}
              (Ok ["ci/build"]) (Sample.check "lint" None)) as [_ Hblocked].
  - split; [reflexivity|by left].
  - exists [], []. split_and!; reflexivity.
  - by left.
  - reflexivity.
  - vm_compute in Hblocked. discriminate.
Qed.

(** The entry of an in-progress check run does not stay false either when
    a later check run of the same name has succeeded. *)
Example in_progress_check_overwritten :
  prStatusMapOf {| Statuses := [] |}
                {| CheckRuns := [Sample.check "ci/build" None;
                                 Sample.check "ci/build" (Some "success")] |}
  !! "ci/build" = Some true.
Proof. vm_compute. reflexivity. Qed.

(** C10, amended. A check run without a conclusion sets the entry of its
    name to false, and the entry stays false in the aggregated map when
    no later check run has the same name, also when a legacy status of
    that name had succeeded.  Such a check run blocks the merge when
    there are no required contexts, and when its name is one of the
    required contexts: [mergePR] returns nil after the three lookups,
    without the merge call. *)
Theorem in_progress_check_blocks_merge {W} (client : Client W) (w w' : W)
    (issue : Issue) (pr : PullRequest) (owner repository commitSHA : string)
    (config : RepoConfig) (statuses : CombinedStatus)
    (before : list CheckRun) (check : CheckRun) (after : list CheckRun)
    (required : result (list string)) :
  passesGates issue pr commitSHA config →
  fetches client w owner repository pr statuses
          {| CheckRuns := before ++ check :: after |} required w' →
  CheckRun_Conclusion check = None →
  Forall (fun later => CheckRun_Name later ≠ CheckRun_Name check) after →
  required = Ok []
  ∨ (∃ msg, required = Err (ErrorResponse StatusNotFound msg))
  ∨ (∃ requiredContexts,
       required = Ok requiredContexts ∧ CheckRun_Name check ∈ requiredContexts) →
  prStatusMapOf statuses {| CheckRuns := before ++ check :: after |} !! CheckRun_Name check
  = Some false
  ∧ run client (mergePR issue pr owner repository commitSHA config) w
    = (None, w', fetchCalls owner repository pr).
Proof.
  intros Hgates Hfetch Hpending Hlast Hpolicy.
  assert (Hentry : prStatusMapOf statuses {| CheckRuns := before ++ check :: after |}
                   !! CheckRun_Name check = Some false).
  { unfold prStatusMapOf. cbn [CheckRuns]. rewrite addCheckRuns_last by done.
    unfold checkSucceeded. by rewrite Hpending. }
  split; [done|].
  rewrite (run_mergePR_fetched client _ _ _ _ _ _ _ _ _ _ Hgates _ Hfetch).
  destruct Hpolicy as [->|[[msg ->]|(requiredContexts & -> & Hin)]].
  - apply runDecision_not_eligible, not_true_is_false. intros Hel.
    by pose proof (proj1 (eligible_nil _) Hel _ _ Hentry).
  - cbn [asErrorResponse]. rewrite bool_decide_eq_true_2 by done.
    apply runDecision_not_eligible, not_true_is_false. intros Hel.
    by pose proof (proj1 (eligible_nil _) Hel _ _ Hentry).
  - apply runDecision_not_eligible. eapply eligible_false_required; eauto.
Qed.

Lemma in_progress_check_blocks_merge_witness :
  passesGates (Sample.issue 7) (Sample.pr 7 "abc") "" Sample.config
  ∧ fetches (forgeClient Sample.buildPending) [] "o" "r" (Sample.pr 7 "abc")
            {| Statuses := [Sample.status "ci/build" "success"] |}
            {| CheckRuns := [] ++ Sample.check "ci/build" None :: [] |}
            (Ok ["ci/build"]) []
  ∧ CheckRun_Conclusion (Sample.check "ci/build" None) = None
  ∧ Forall (fun later => CheckRun_Name later ≠ CheckRun_Name (Sample.check "ci/build" None))
           []
  ∧ ((Ok ["ci/build"] : result (list string)) = Ok []
     ∨ (∃ msg, (Ok ["ci/build"] : result (list string))
               = Err (ErrorResponse StatusNotFound msg))
     ∨ (∃ requiredContexts,
          (Ok ["ci/build"] : result (list string)) = Ok requiredContexts
          ∧ CheckRun_Name (Sample.check "ci/build" None) ∈ requiredContexts))
  ∧ run (forgeClient Sample.buildPending)
        (mergePR (Sample.issue 7) (Sample.pr 7 "abc") "o" "r" "" Sample.config) []
    = (None, [], fetchCalls "o" "r" (Sample.pr 7 "abc")).
Proof.
  assert (Hgates : passesGates (Sample.issue 7) (Sample.pr 7 "abc") "" Sample.config)
    by (split; [reflexivity|by left]).
  assert (Hfetch : fetches (forgeClient Sample.buildPending) [] "o" "r" (Sample.pr 7 "abc")
            {| Statuses := [Sample.status "ci/build" "success"] |}
            {| CheckRuns := [] ++ Sample.check "ci/build" None :: [] |}
            (Ok ["ci/build"]) [])
    by (exists [], []; split_and!; reflexivity).
  assert (Hlast : Forall (fun later => CheckRun_Name later
                                       ≠ CheckRun_Name (Sample.check "ci/build" None)) [])
    by constructor.
  assert (Hpolicy : (Ok ["ci/build"] : result (list string)) = Ok []
     ∨ (∃ msg, (Ok ["ci/build"] : result (list string))
               = Err (ErrorResponse StatusNotFound msg))
     ∨ (∃ requiredContexts,
          (Ok ["ci/build"] : result (list string)) = Ok requiredContexts
          ∧ CheckRun_Name (Sample.check "ci/build" None) ∈ requiredContexts)).
  { right. right. exists ["ci/build"]. split; [reflexivity|by left]. }
  refine (conj Hgates (conj Hfetch (conj eq_refl (conj Hlast (conj Hpolicy _))))).
  exact (proj2 (in_progress_check_blocks_merge (forgeClient Sample.buildPending) [] []
                  _ _ _ _ "" _ _ _ _ _ _ Hgates Hfetch eq_refl Hlast Hpolicy)).
Defined.


(** ** More on the runs of [mergePR] *)

Section MergePRRuns.

Context {W : Type} (client : Client W).
Variables (issue : Issue) (pr : PullRequest) (owner repository commitSHA : string)
          (config : RepoConfig).

Lemma gates_open :
  passesGates issue pr commitSHA config →
  negb (containsLabel (Issue_Labels issue) (Approved (Labels config))) = false
  ∧ negb (bool_decide (commitSHA = ""))
    && negb (bool_decide (PullRequestBranch_GetSHA (PullRequest_Head pr) = commitSHA))
    = false.
Proof.
  intros [Hlabel Hsha]. rewrite Hlabel. split; [done|].
  destruct Hsha as [->|Heq].
  - by rewrite bool_decide_eq_true_2.
  - unfold headSHA in Heq. rewrite (bool_decide_eq_true_2 _ Heq). apply andb_false_r.
Qed.

Lemma run_mergePR_prefix (w : W) :
  (run client (mergePR issue pr owner repository commitSHA config) w).2
  `prefix_of` fetchCalls owner repository pr ++ [mergeCall issue pr owner repository].
Proof.
  unfold mergePR, fetchCalls, mergeCall, headSHA, baseRef.
  destruct (negb (containsLabel _ _)); [apply prefix_nil|].
  destruct (_ && _); [apply prefix_nil|].
  cbn [run]. destruct (client _ w) as [[statuses|?] w1]; cbn [run snd];
    [|by eexists [_; _; _]].
  destruct (client _ w1) as [[prChecks|?] w2]; cbn [run snd];
    [|by eexists [_; _]].
  destruct (client _ w2) as [[requiredContexts|err] w3]; cbn [values run snd].
  - destruct (eligible _ _); cbn [run snd]; [|by eexists [_]].
    destruct (client _ w3) as [[|] w4]; by exists [].
  - destruct (match asErrorResponse err with Some _ => _ | None => _ end);
      cbn [run snd]; [by eexists [_]|].
    destruct (eligible _ _); cbn [run snd]; [|by eexists [_]].
    destruct (client _ w3) as [[|] w4]; by exists [].
Qed.

End MergePRRuns.

(** X1. Whatever the client answers, the calls of [mergePR] are an initial
    part of: combined status, check runs, required contexts, merge.  So
    it looks nothing else up, merges at most once, and only after all
    three lookups. *)
Theorem mergePR_call_order {W} (client : Client W) (w : W) (issue : Issue)
    (pr : PullRequest) (owner repository commitSHA : string) (config : RepoConfig) :
  (run client (mergePR issue pr owner repository commitSHA config) w).2
  `prefix_of`
    [Repositories_GetCombinedStatus owner repository
       (PullRequestBranch_GetSHA (PullRequest_Head pr));
     Checks_ListCheckRunsForRef owner repository
       (PullRequestBranch_GetSHA (PullRequest_Head pr));
     Repositories_ListRequiredStatusChecksContexts owner repository
       (PullRequestBranch_GetRef (PullRequest_Base pr));
     PullRequests_Merge owner repository (Issue_GetNumber issue) ""
       (PullRequestBranch_GetSHA (PullRequest_Head pr))].
Proof. apply run_mergePR_prefix. Qed.


(** X2. When the gates are open and the combined status of the head
    commit cannot be fetched, [mergePR] returns that error wrapped with
    the URL of the pull request and stops: the status call is its only
    call. *)
Theorem mergePR_status_fetch_failure {W} (client : Client W) (w w1 : W) (issue : Issue)
    (pr : PullRequest) (owner repository commitSHA : string) (config : RepoConfig)
    (err : error) :
  passesGates issue pr commitSHA config →
  client (Repositories_GetCombinedStatus owner repository (headSHA pr)) w = (Err err, w1) →
  run client (mergePR issue pr owner repository commitSHA config) w
  = (Some (Wrap err ("failed to get statuses of pull request " +:+ Issue_GetHTMLURL issue)),
     w1, [Repositories_GetCombinedStatus owner repository (headSHA pr)]).
Proof.
  intros Hgates Hstatus. destruct (gates_open _ _ _ _ Hgates) as [Hlabel Hsha].
  unfold mergePR, headSHA in *. rewrite Hlabel, Hsha. cbn [run]. by rewrite Hstatus.
Qed.

Lemma mergePR_status_fetch_failure_witness :
  passesGates (Sample.issue 7) (Sample.pr 7 "abc") "" Sample.config
  ∧ forgeClient Sample.statusesDown
      (Repositories_GetCombinedStatus "o" "r" (headSHA (Sample.pr 7 "abc"))) []
    = (Err Sample.badGateway, [])
  ∧ run (forgeClient Sample.statusesDown)
        (mergePR (Sample.issue 7) (Sample.pr 7 "abc") "o" "r" "" Sample.config) []
    = (Some (Wrap Sample.badGateway
                  "failed to get statuses of pull request https://github.com/o/r/pull/7"),
       [], [Repositories_GetCombinedStatus "o" "r" "abc"]).
Proof.
  assert (Hgates : passesGates (Sample.issue 7) (Sample.pr 7 "abc") "" Sample.config)
    by (split; [reflexivity|by left]).
  refine (conj Hgates (conj eq_refl _)).
  exact (mergePR_status_fetch_failure (forgeClient Sample.statusesDown) [] []
           (Sample.issue 7) (Sample.pr 7 "abc") "o" "r" "" Sample.config
           Sample.badGateway Hgates eq_refl).
Defined.

(** X3. When the statuses are fetched and the check runs of the head
    commit cannot be, [mergePR] returns that error wrapped with the URL
    of the pull request after these two calls: it neither looks up the
    required contexts nor merges, whatever the statuses were. *)
Theorem mergePR_check_runs_fetch_failure {W} (client : Client W) (w w1 w2 : W)
    (issue : Issue) (pr : PullRequest) (owner repository commitSHA : string)
    (config : RepoConfig) (statuses : CombinedStatus) (err : error) :
  passesGates issue pr commitSHA config →
  client (Repositories_GetCombinedStatus owner repository (headSHA pr)) w
  = (Ok statuses, w1) →
  client (Checks_ListCheckRunsForRef owner repository (headSHA pr)) w1 = (Err err, w2) →
  run client (mergePR issue pr owner repository commitSHA config) w
  = (Some (Wrap err ("failed to retrieve all check for pull request "
                     +:+ Issue_GetHTMLURL issue)),
     w2, [Repositories_GetCombinedStatus owner repository (headSHA pr);
          Checks_ListCheckRunsForRef owner repository (headSHA pr)]).
Proof.
  intros Hgates Hstatus Hchecks. destruct (gates_open _ _ _ _ Hgates) as [Hlabel Hsha].
  unfold mergePR, headSHA in *. rewrite Hlabel, Hsha.
  cbn [run]. rewrite Hstatus. cbn [run]. by rewrite Hchecks.
Qed.

Lemma mergePR_check_runs_fetch_failure_witness :
  passesGates (Sample.issue 7) (Sample.pr 7 "abc") "abc" Sample.config
  ∧ forgeClient Sample.checksDown
      (Repositories_GetCombinedStatus "o" "r" (headSHA (Sample.pr 7 "abc"))) []
    = (Ok {| Statuses := [Sample.status "ci/build" "success"] |}, [])
  ∧ forgeClient Sample.checksDown
      (Checks_ListCheckRunsForRef "o" "r" (headSHA (Sample.pr 7 "abc"))) []
    = (Err Sample.badGateway, [])
  ∧ run (forgeClient Sample.checksDown)
        (mergePR (Sample.issue 7) (Sample.pr 7 "abc") "o" "r" "abc" Sample.config) []
    = (Some (Wrap Sample.badGateway
                  "failed to retrieve all check for pull request https://github.com/o/r/pull/7"),
       [], [Repositories_GetCombinedStatus "o" "r" "abc";
            Checks_ListCheckRunsForRef "o" "r" "abc"]).
Proof.
  assert (Hgates : passesGates (Sample.issue 7) (Sample.pr 7 "abc") "abc" Sample.config)
    by (split; [reflexivity|by right]).
  refine (conj Hgates (conj eq_refl (conj eq_refl _))).
  exact (mergePR_check_runs_fetch_failure (forgeClient Sample.checksDown) [] [] []
           (Sample.issue 7) (Sample.pr 7 "abc") "o" "r" "abc" Sample.config _
           Sample.badGateway Hgates eq_refl eq_refl).
Defined.

(** X4. When the pull request is eligible, the outcome of [mergePR] is
    the outcome of the merge call: nil when the merge succeeds, its error
    wrapped with the URL of the pull request when it fails; the merge is
    the fourth and last call. *)
Theorem mergePR_merge_outcome {W} (client : Client W) (w w' w'' : W) (issue : Issue)
    (pr : PullRequest) (owner repository commitSHA : string) (config : RepoConfig)
    (statuses : CombinedStatus) (prChecks : ListCheckRunsResults)
    (required : result (list string)) (requiredContexts : list string)
    (merged : result unit) :
  passesGates issue pr commitSHA config →
  fetches client w owner repository pr statuses prChecks required w' →
  required = Ok requiredContexts
  ∨ (requiredContexts = [] ∧ ∃ msg, required = Err (ErrorResponse StatusNotFound msg)) →
  eligible requiredContexts (prStatusMapOf statuses prChecks) = true →
  client (PullRequests_Merge owner repository (Issue_GetNumber issue) "" (headSHA pr)) w'
  = (merged, w'') →
  run client (mergePR issue pr owner repository commitSHA config) w
  = (match merged with
     | Ok _ => None
     | Err err =>
         Some (Wrap err ("failed to merge pull request " +:+ Issue_GetHTMLURL issue))
     end,
     w'',
     fetchCalls owner repository pr
     ++ [PullRequests_Merge owner repository (Issue_GetNumber issue) "" (headSHA pr)]).
Proof.
  intros Hgates Hfetch Hrequired Heligible Hmerge.
  rewrite (run_mergePR_fetched client _ _ _ _ _ _ _ _ _ _ Hgates _ Hfetch).
  assert (match required with
          | Ok requiredContexts0 =>
              runDecision client w' issue pr owner repository requiredContexts0
                          (prStatusMapOf statuses prChecks)
          | Err err =>
              if bool_decide (asErrorResponse err = Some StatusNotFound)
              then runDecision client w' issue pr owner repository []
                               (prStatusMapOf statuses prChecks)
              else (Some (Wrap err ("failed to get target branch (" +:+ baseRef pr
                                    +:+ ") protection for pull request "
                                    +:+ Issue_GetHTMLURL issue)),
                    w', fetchCalls owner repository pr)
          end
          = runDecision client w' issue pr owner repository requiredContexts
                        (prStatusMapOf statuses prChecks)) as ->.
  { destruct Hrequired as [->|[-> [msg ->]]]; [done|].
    cbn. by rewrite bool_decide_eq_true_2. }
  destruct (runDecision_eligible client w' issue pr owner repository _ _ Heligible)
    as (r & w3 & Hr & ->).
  unfold mergeCall in *. rewrite Hmerge in Hr. injection Hr as <- <-.
  by destruct merged.
Qed.

Lemma mergePR_merge_outcome_witness :
  passesGates (Sample.issue 7) (Sample.pr 7 "abc") "" Sample.config
  ∧ fetches (forgeClient Sample.twoPullRequests) [] "o" "r" (Sample.pr 7 "abc")
            {| Statuses := [Sample.status "ci/build" "success"] |} {| CheckRuns := [] |}
            Sample.notProtected []
  ∧ (Sample.notProtected = Ok []
     ∨ ([] = ([] : list string)
        ∧ ∃ msg, Sample.notProtected = Err (ErrorResponse StatusNotFound msg)))
  ∧ eligible [] (prStatusMapOf {| Statuses := [Sample.status "ci/build" "success"] |}
                               {| CheckRuns := [] |}) = true
  ∧ forgeClient Sample.twoPullRequests
      (PullRequests_Merge "o" "r" (Issue_GetNumber (Sample.issue 7)) ""
                          (headSHA (Sample.pr 7 "abc"))) []
    = (Err Sample.conflict, [])
  ∧ run (forgeClient Sample.twoPullRequests)
        (mergePR (Sample.issue 7) (Sample.pr 7 "abc") "o" "r" "" Sample.config) []
    = (Some (Wrap Sample.conflict
                  "failed to merge pull request https://github.com/o/r/pull/7"),
       [],
       fetchCalls "o" "r" (Sample.pr 7 "abc") ++ [PullRequests_Merge "o" "r" 7 "" "abc"]).
Proof.
  assert (Hgates : passesGates (Sample.issue 7) (Sample.pr 7 "abc") "" Sample.config)
    by (split; [reflexivity|by left]).
  assert (Hfetch : fetches (forgeClient Sample.twoPullRequests) [] "o" "r"
            (Sample.pr 7 "abc")
            {| Statuses := [Sample.status "ci/build" "success"] |} {| CheckRuns := [] |}
            Sample.notProtected [])
    by (exists [], []; split_and!; reflexivity).
  assert (Hrequired : Sample.notProtected = Ok []
     ∨ ([] = ([] : list string)
        ∧ ∃ msg, Sample.notProtected = Err (ErrorResponse StatusNotFound msg)))
    by (right; split; [reflexivity|eexists; reflexivity]).
  assert (Heligible :
            eligible [] (prStatusMapOf {| Statuses := [Sample.status "ci/build" "success"] |}
                                       {| CheckRuns := [] |}) = true)
    by (vm_compute; reflexivity).
  refine (conj Hgates (conj Hfetch (conj Hrequired (conj Heligible (conj eq_refl _))))).
  exact (mergePR_merge_outcome (forgeClient Sample.twoPullRequests) [] [] []
           (Sample.issue 7) (Sample.pr 7 "abc") "o" "r" "" Sample.config _ _ _ []
           (Err Sample.conflict) Hgates Hfetch Hrequired Heligible eq_refl).
Defined.

(** X5. Pinning [mergePR] to the head SHA of the pull request changes
    nothing: it is the same program as the call without a pinned
    commit. *)
Theorem mergePR_pinned_to_head (issue : Issue) (pr : PullRequest)
    (owner repository commitSHA : string) (config : RepoConfig) :
  PullRequestBranch_GetSHA (PullRequest_Head pr) = commitSHA →
  mergePR issue pr owner repository commitSHA config
  = mergePR issue pr owner repository "" config.
Proof.
  intros Hhead. unfold mergePR.
  destruct (negb (containsLabel _ _)); [done|].
  rewrite (bool_decide_eq_true_2 _ Hhead), andb_false_r.
  by rewrite (bool_decide_eq_true_2 ("" = "")).
Qed.

Lemma mergePR_pinned_to_head_witness :
  PullRequestBranch_GetSHA (PullRequest_Head (Sample.pr 7 "abc")) = "abc"
  ∧ mergePR (Sample.issue 7) (Sample.pr 7 "abc") "o" "r" "abc" Sample.config
    = mergePR (Sample.issue 7) (Sample.pr 7 "abc") "o" "r" "" Sample.config.
Proof.
  refine (conj eq_refl _).
  exact (mergePR_pinned_to_head (Sample.issue 7) (Sample.pr 7 "abc") "o" "r" "abc"
                                Sample.config eq_refl).
Defined.


(** ** Pull request and review events *)

Section SinglePullRequest.

Context {W : Type} (client : Client W).
Variables (config : RepoConfig).

Lemma HandleEvent_triggered (eventObject : Event) (repo : Repository)
    (pullRequest : PullRequest) :
  Approved (Labels config) ≠ "" →
  triggered eventObject = Some (repo, pullRequest) →
  HandleEvent eventObject config = mergePRFromPullRequestEvent repo pullRequest config.
Proof.
  intros Henabled Htriggered. unfold HandleEvent.
  rewrite bool_decide_eq_false_2 by done.
  destruct eventObject as [event|event|event|]; cbn in Htriggered; try done.
  - unfold handlePullRequestEvent.
    destruct (bool_decide _); [|done]. by injection Htriggered as <- <-.
  - unfold handlePullRequestReviewEvent.
    destruct (bool_decide _); [|done]. by injection Htriggered as <- <-.
Qed.

Lemma HandleEvent_not_triggered (eventObject : Event) :
  (∀ event, eventObject ≠ EvStatus event) →
  triggered eventObject = None →
  HandleEvent eventObject config = Ret None.
Proof.
  intros Hstatus Hnone. unfold HandleEvent. destruct (bool_decide _); [done|].
  destruct eventObject as [event|event|event|]; cbn in Hnone; try done.
  - unfold handlePullRequestEvent. by destruct (bool_decide _).
  - by destruct (Hstatus event).
  - unfold handlePullRequestReviewEvent. by destruct (bool_decide _).
Qed.

Lemma merges_app (calls1 calls2 : list Op) :
  merges (calls1 ++ calls2) = (merges calls1 + merges calls2)%nat.
Proof. unfold merges. by rewrite List.filter_app, length_app. Qed.

Lemma run_mergePR_bounds (issue : Issue) (pr : PullRequest)
    (owner repository commitSHA : string) (w : W) :
  (merges (run client (mergePR issue pr owner repository commitSHA config) w).2 ≤ 1)%nat
  ∧ (List.length (run client (mergePR issue pr owner repository commitSHA config) w).2
     ≤ 4)%nat.
Proof.
  destruct (run_mergePR_prefix client issue pr owner repository commitSHA config w)
    as [rest Hrest].
  split.
  - apply (f_equal merges) in Hrest. rewrite (merges_app _ rest) in Hrest.
    change (merges (fetchCalls _ _ _ ++ _)) with 1%nat in Hrest. lia.
  - apply (f_equal List.length) in Hrest. rewrite (length_app _ rest) in Hrest.
    change (List.length (fetchCalls _ _ _ ++ _)) with 4%nat in Hrest. lia.
Qed.

Lemma run_mergePRFromPullRequestEvent (repo : Repository) (pullRequest : PullRequest)
    (w : W) :
  run client (mergePRFromPullRequestEvent repo pullRequest config) w
  = let '(r, w1) := client (issueCall repo pullRequest) w in
    match r with
    | Err err =>
        (Some (Wrap err ("failed to get pull request "
                         +:+ PullRequest_GetHTMLURL pullRequest)),
         w1, [issueCall repo pullRequest])
    | Ok issue =>
        let '(res, w2, calls) :=
          run client (mergePR issue pullRequest (User_GetLogin (Repository_Owner repo))
                              (Repository_GetName repo) "" config) w1 in
        (res, w2, issueCall repo pullRequest :: calls)
    end.
Proof.
  unfold mergePRFromPullRequestEvent, issueCall. cbn [run].
  destruct (client _ w) as [[issue|err] w1]; [|done].
  by destruct (run client _ w1) as [[res w2] calls].
Qed.

End SinglePullRequest.

(** X6. When a pull request event or a review event passes its trigger
    test and the issue of the pull request cannot be fetched, [HandleEvent]
    returns that error wrapped with the URL of the pull request from the
    payload; the issue lookup is the only call. *)
Theorem HandleEvent_issue_lookup_failure {W} (client : Client W) (w w1 : W)
    (eventObject : Event) (config : RepoConfig) (repo : Repository)
    (pullRequest : PullRequest) (err : error) :
  Approved (Labels config) ≠ "" →
  triggered eventObject = Some (repo, pullRequest) →
  client (Issues_Get (User_GetLogin (Repository_Owner repo)) (Repository_GetName repo)
                     (PullRequest_GetNumber pullRequest)) w
  = (Err err, w1) →
  run client (HandleEvent eventObject config) w
  = (Some (Wrap err ("failed to get pull request " +:+ PullRequest_GetHTMLURL pullRequest)),
     w1,
     [Issues_Get (User_GetLogin (Repository_Owner repo)) (Repository_GetName repo)
                 (PullRequest_GetNumber pullRequest)]).
Proof.
  intros Henabled Htriggered Hissue.
  rewrite (HandleEvent_triggered config _ _ _ Henabled Htriggered).
  rewrite run_mergePRFromPullRequestEvent. unfold issueCall. by rewrite Hissue.
Qed.

Lemma HandleEvent_issue_lookup_failure_witness :
  Approved (Labels Sample.config) ≠ ""
  ∧ triggered (EvPullRequest (Sample.pullRequestEvent "Labeled"))
    = Some (Sample.repo, Sample.pr 7 "abc")
  ∧ forgeClient Sample.issueDown (Issues_Get "o" "r" 7) [] = (Err Sample.badGateway, [])
  ∧ run (forgeClient Sample.issueDown)
        (HandleEvent (EvPullRequest (Sample.pullRequestEvent "Labeled")) Sample.config) []
    = (Some (Wrap Sample.badGateway
                  "failed to get pull request https://github.com/o/r/pull/7"),
       [], [Issues_Get "o" "r" 7]).
Proof.
  assert (Henabled : Approved (Labels Sample.config) ≠ "") by discriminate.
  refine (conj Henabled (conj eq_refl (conj eq_refl _))).
  exact (HandleEvent_issue_lookup_failure (forgeClient Sample.issueDown) [] []
           (EvPullRequest (Sample.pullRequestEvent "Labeled")) Sample.config
           Sample.repo (Sample.pr 7 "abc") Sample.badGateway Henabled eq_refl eq_refl).
Defined.

(** X7. When a pull request event or a review event passes its trigger
    test and the issue of the pull request is fetched, [HandleEvent] goes
    on as [mergePR] on the fetched issue and the pull request of the
    payload, without a pinned commit: the labels are those of the fetched
    issue, the head and base those of the payload. *)
Theorem HandleEvent_evaluates_fetched_issue {W} (client : Client W) (w w1 : W)
    (eventObject : Event) (config : RepoConfig) (repo : Repository)
    (pullRequest : PullRequest) (issue : Issue) :
  Approved (Labels config) ≠ "" →
  triggered eventObject = Some (repo, pullRequest) →
  client (Issues_Get (User_GetLogin (Repository_Owner repo)) (Repository_GetName repo)
                     (PullRequest_GetNumber pullRequest)) w
  = (Ok issue, w1) →
  let '(res, w2, calls) :=
    run client (mergePR issue pullRequest (User_GetLogin (Repository_Owner repo))
                        (Repository_GetName repo) "" config) w1 in
  run client (HandleEvent eventObject config) w
  = (res, w2,
     Issues_Get (User_GetLogin (Repository_Owner repo)) (Repository_GetName repo)
                (PullRequest_GetNumber pullRequest) :: calls).
Proof.
  intros Henabled Htriggered Hissue.
  rewrite (HandleEvent_triggered config _ _ _ Henabled Htriggered).
  rewrite run_mergePRFromPullRequestEvent. unfold issueCall. rewrite Hissue.
  by destruct (run client _ w1) as [[res w2] calls].
Qed.

Lemma HandleEvent_evaluates_fetched_issue_witness :
  Approved (Labels Sample.config) ≠ ""
  ∧ triggered (EvPullRequestReview (Sample.reviewEvent "APPROVED"))
    = Some (Sample.repo, Sample.pr 7 "abc")
  ∧ forgeClient Sample.unprotected (Issues_Get "o" "r" 7) [] = (Ok (Sample.issue 7), [])
  ∧ run (forgeClient Sample.unprotected)
        (HandleEvent (EvPullRequestReview (Sample.reviewEvent "APPROVED")) Sample.config) []
    = (None, [7],
       Issues_Get "o" "r" 7
       :: fetchCalls "o" "r" (Sample.pr 7 "abc") ++ [PullRequests_Merge "o" "r" 7 "" "abc"]).
Proof.
  assert (Henabled : Approved (Labels Sample.config) ≠ "") by discriminate.
  refine (conj Henabled (conj eq_refl (conj eq_refl _))).
  pose proof (HandleEvent_evaluates_fetched_issue (forgeClient Sample.unprotected) [] []
                (EvPullRequestReview (Sample.reviewEvent "APPROVED")) Sample.config
                Sample.repo (Sample.pr 7 "abc") (Sample.issue 7)
                Henabled eq_refl eq_refl) as H.
  destruct (run (forgeClient Sample.unprotected)
                (mergePR (Sample.issue 7) (Sample.pr 7 "abc")
                         (User_GetLogin (Repository_Owner Sample.repo))
                         (Repository_GetName Sample.repo) "" Sample.config) [])
    as [[res merged] calls] eqn:Hrun.
  rewrite H. vm_compute in Hrun. by injection Hrun as <- <- <-.
Defined.

(** X8. Once the trigger test is passed, [HandleEvent] looks at nothing
    but the repository and the pull request of the payload: an event
    for an added label and an approved review that carry the same two
    are handled by the same program. *)
Theorem HandleEvent_same_subject (eventObject1 eventObject2 : Event) (config : RepoConfig)
    (repo : Repository) (pullRequest : PullRequest) :
  triggered eventObject1 = Some (repo, pullRequest) →
  triggered eventObject2 = Some (repo, pullRequest) →
  HandleEvent eventObject1 config = HandleEvent eventObject2 config.
Proof.
  intros H1 H2.
  destruct (decide (Approved (Labels config) = "")) as [Hoff|Hon].
  - unfold HandleEvent. by rewrite !bool_decide_eq_true_2.
  - by rewrite (HandleEvent_triggered config _ _ _ Hon H1),
               (HandleEvent_triggered config _ _ _ Hon H2).
Qed.

Lemma HandleEvent_same_subject_witness :
  triggered (EvPullRequest (Sample.pullRequestEvent "labeled"))
  = Some (Sample.repo, Sample.pr 7 "abc")
  ∧ triggered (EvPullRequestReview (Sample.reviewEvent "Approved"))
    = Some (Sample.repo, Sample.pr 7 "abc")
  ∧ HandleEvent (EvPullRequest (Sample.pullRequestEvent "labeled")) Sample.config
    = HandleEvent (EvPullRequestReview (Sample.reviewEvent "Approved")) Sample.config.
Proof.
  refine (conj eq_refl (conj eq_refl _)).
  exact (HandleEvent_same_subject
           (EvPullRequest (Sample.pullRequestEvent "labeled"))
           (EvPullRequestReview (Sample.reviewEvent "Approved"))
           Sample.config Sample.repo (Sample.pr 7 "abc") eq_refl eq_refl).
Defined.

(** X9. An event that is not a commit status event leads to at most one
    merge call and to at most five calls in all, whatever the client
    answers. *)
Theorem HandleEvent_single_merge {W} (client : Client W) (w : W) (eventObject : Event)
    (config : RepoConfig) :
  (∀ event, eventObject ≠ EvStatus event) →
  (merges (run client (HandleEvent eventObject config) w).2 ≤ 1)%nat
  ∧ (List.length (run client (HandleEvent eventObject config) w).2 ≤ 5)%nat.
Proof.
  intros Hstatus.
  destruct (triggered eventObject) as [[repo pullRequest]|] eqn:Htriggered;
    [|rewrite HandleEvent_not_triggered by done; cbn; lia].
  destruct (decide (Approved (Labels config) = "")) as [Hoff|Hon].
  { unfold HandleEvent. rewrite bool_decide_eq_true_2 by done. cbn. lia. }
  rewrite (HandleEvent_triggered config _ _ _ Hon Htriggered).
  rewrite run_mergePRFromPullRequestEvent.
  destruct (client _ w) as [[issue|err] w1]; [|cbn; lia].
  pose proof (run_mergePR_bounds client config issue pullRequest
                (User_GetLogin (Repository_Owner repo)) (Repository_GetName repo) "" w1)
    as [Hmerges Hlength].
  destruct (run client _ w1) as [[res w2] calls]. cbn [snd] in *.
  split; [|cbn; lia].
  change (issueCall repo pullRequest :: calls) with ([issueCall repo pullRequest] ++ calls).
  rewrite merges_app. change (merges [issueCall repo pullRequest]) with 0%nat. lia.
Qed.

Lemma HandleEvent_single_merge_witness :
  (∀ event, EvPullRequest (Sample.pullRequestEvent "labeled") ≠ EvStatus event)
  ∧ (merges (run (forgeClient Sample.unprotected)
                 (HandleEvent (EvPullRequest (Sample.pullRequestEvent "labeled"))
                              Sample.config) []).2 ≤ 1)%nat.
Proof.
  assert (H : ∀ event, EvPullRequest (Sample.pullRequestEvent "labeled") ≠ EvStatus event)
    by discriminate.
  refine (conj H _).
  exact (proj1 (HandleEvent_single_merge (forgeClient Sample.unprotected) []
                  (EvPullRequest (Sample.pullRequestEvent "labeled")) Sample.config H)).
Defined.

(** ** More on commit status events *)

Section StatusEvents.

Context {W : Type} (client : Client W).
Variables (event : StatusEvent) (config : RepoConfig).

Lemma everyCall_bind {A B} (P : Op → Prop) (p : Prog A) (f : A → Prog B) :
  everyCall P p → (∀ a, everyCall P (f a)) → everyCall P (bind p f).
Proof.
  intros Hp Hf. induction p as [a|op k IH]; cbn; [apply Hf|].
  destruct Hp as [Hop Hk]. split; [done|]. intros x. by apply IH.
Qed.

Lemma everyCall_impl {A} (P Q : Op → Prop) (p : Prog A) :
  (∀ op, P op → Q op) → everyCall P p → everyCall Q p.
Proof.
  intros HPQ. induction p as [a|op k IH]; cbn; [done|].
  intros [Hop Hk]. split; [by apply HPQ|]. intros x. by apply IH.
Qed.





Lemma mergePR_pinned_calls (issue : Issue) (pr : PullRequest)
    (owner repository commitSHA : string) :
  commitSHA ≠ "" →
  everyCall (fun op =>
               isMerge op = true →
               op = PullRequests_Merge owner repository (Issue_GetNumber issue) "" commitSHA)
            (mergePR issue pr owner repository commitSHA config).
Proof.
  intros Hpinned. unfold mergePR.
  destruct (negb (containsLabel _ _)); [done|].
  rewrite (bool_decide_eq_false_2 _ Hpinned). cbn [negb andb].
  destruct (bool_decide_reflect
              (PullRequestBranch_GetSHA (PullRequest_Head pr) = commitSHA))
    as [->|_]; [|done].
  cbn. split; [done|]. intros [statuses|?]; [|done].
  cbn. split; [done|]. intros [prChecks|?]; [|done].
  cbn. split; [done|]. intros [requiredContexts|err]; cbn.
  - destruct (eligible _ _); [|done]. cbn. split; [done|]. by intros [|].
  - destruct (match asErrorResponse err with Some _ => _ | None => _ end); [done|].
    destruct (eligible _ _); [|done]. cbn. split; [done|]. by intros [|].
Qed.

Lemma handleStatusEvent_range_pinned_calls (issues : list Issue)
    (multiErr : option error) :
  StatusEvent_GetSHA event ≠ "" →
  everyCall (fun op =>
               isMerge op = true →
               ∃ number,
                 op = PullRequests_Merge
                        (User_GetLogin (Repository_Owner (StatusEvent_Repo event)))
                        (Repository_GetName (StatusEvent_Repo event))
                        number "" (StatusEvent_GetSHA event))
            (handleStatusEvent_range event (StatusEvent_GetSHA event) config
                                     issues multiErr).
Proof.
  intros Hpinned. revert multiErr.
  induction issues as [|issue rest IH]; intros multiErr; cbn; [done|].
  destruct (Issue_PullRequestLinks issue); [|apply IH].
  cbn. split; [done|]. intros [pr|?]; [|apply IH].
  apply everyCall_bind.
  - eapply everyCall_impl; [|by apply mergePR_pinned_calls].
    cbn. intros op Hop Hmerge. eexists. by apply Hop.
  - intros [?|]; apply IH.
Qed.

Lemma fold_Combine_None (errs : list (option error)) (acc : option error) :
  fold_left Combine errs acc = None ↔ acc = None ∧ Forall (fun err => err = None) errs.
Proof.
  revert acc. induction errs as [|err errs IH]; intros acc; cbn.
  - split; [by intros ->|by intros [-> _]].
  - rewrite IH. split.
    + intros [Hacc Herrs]. destruct acc, err; try done. by split; [|constructor].
    + intros [-> Herrs]. inversion Herrs; subst. by split.
Qed.



Lemma run_handleStatusEvent_found (w w1 : W) (searchResult : IssuesSearchResult) :
  ToLower (StatusEvent_GetState event) = statusEventSuccessState →
  client (Search_Issues (searchQuery event)) w = (Ok searchResult, w1) →
  run client (handleStatusEvent event config) w
  = let '(errs, w2, calls) :=
      attemptAll client event config
                 (List.filter isPullRequest (Issues searchResult)) w1 in
    (fold_left Combine errs None, w2, Search_Issues (searchQuery event) :: calls).
Proof.
  intros Hstate Hsearch. unfold handleStatusEvent.
  rewrite (bool_decide_eq_true_2 _ Hstate). cbn [negb run].
  fold (searchQuery event). rewrite Hsearch, run_handleStatusEvent_range.
  by destruct (attemptAll _ _ _ _ w1) as [[errs w2] calls].
Qed.

End StatusEvents.

(** X10. When a commit status event reports success and the search for
    the open pull requests of the commit fails, [handleStatusEvent]
    returns that error wrapped; the search is its only call, so no pull
    request is looked up or merged. *)
Theorem handleStatusEvent_search_failure {W} (client : Client W) (w w1 : W)
    (event : StatusEvent) (config : RepoConfig) (err : error) :
  ToLower (StatusEvent_GetState event) = "success" →
  client (Search_Issues (searchQuery event)) w = (Err err, w1) →
  run client (handleStatusEvent event config) w
  = (Some (Wrap err "failed to search for open issues"), w1,
     [Search_Issues (searchQuery event)]).
Proof.
  intros Hstate Hsearch. unfold handleStatusEvent.
  rewrite (bool_decide_eq_true_2 (_ = statusEventSuccessState)) by done.
  cbn [negb run]. fold (searchQuery event). by rewrite Hsearch.
Qed.

Lemma handleStatusEvent_search_failure_witness :
  ToLower (StatusEvent_GetState (Sample.statusEvent "Success")) = "success"
  ∧ forgeClient Sample.searchDown
      (Search_Issues (searchQuery (Sample.statusEvent "Success"))) []
    = (Err Sample.badGateway, [])
  ∧ run (forgeClient Sample.searchDown)
        (handleStatusEvent (Sample.statusEvent "Success") Sample.config) []
    = (Some (Wrap Sample.badGateway "failed to search for open issues"), [],
       [Search_Issues "type:pr state:open repo:o/r abc"]).
Proof.
  refine (conj eq_refl (conj eq_refl _)).
  exact (handleStatusEvent_search_failure (forgeClient Sample.searchDown) [] []
           (Sample.statusEvent "Success") Sample.config Sample.badGateway
           eq_refl eq_refl).
Defined.

(** X11. When the search succeeds and finds no issue with pull request
    links (in particular when it finds nothing), [handleStatusEvent]
    returns nil after the search alone. *)
Theorem handleStatusEvent_no_pull_request {W} (client : Client W) (w w1 : W)
    (event : StatusEvent) (config : RepoConfig) (searchResult : IssuesSearchResult) :
  ToLower (StatusEvent_GetState event) = "success" →
  client (Search_Issues (searchQuery event)) w = (Ok searchResult, w1) →
  (∀ issue, issue ∈ Issues searchResult → Issue_PullRequestLinks issue = None) →
  run client (handleStatusEvent event config) w
  = (None, w1, [Search_Issues (searchQuery event)]).
Proof.
  intros Hstate Hsearch Hnone.
  rewrite (run_handleStatusEvent_found client event config _ _ _ Hstate Hsearch).
  assert (List.filter isPullRequest (Issues searchResult) = []) as ->; [|done].
  induction (Issues searchResult) as [|issue rest IH]; [done|].
  cbn. unfold isPullRequest at 1. rewrite (Hnone issue) by (by left).
  apply IH. intros issue' Hin. apply Hnone. by right.
Qed.

Lemma handleStatusEvent_no_pull_request_witness :
  ToLower (StatusEvent_GetState (Sample.statusEvent "success")) = "success"
  ∧ forgeClient Sample.onlyIssues
      (Search_Issues (searchQuery (Sample.statusEvent "success"))) []
    = (Ok {| Issues := [Sample.plainIssue 9; Sample.plainIssue 10] |}, [])
  ∧ (∀ issue, issue ∈ [Sample.plainIssue 9; Sample.plainIssue 10] →
              Issue_PullRequestLinks issue = None)
  ∧ run (forgeClient Sample.onlyIssues)
        (handleStatusEvent (Sample.statusEvent "success") Sample.config) []
    = (None, [], [Search_Issues "type:pr state:open repo:o/r abc"]).
Proof.
  assert (Hnone : ∀ issue, issue ∈ [Sample.plainIssue 9; Sample.plainIssue 10] →
                           Issue_PullRequestLinks issue = None).
  { intros issue Hin. apply list_elem_of_In in Hin.
    destruct Hin as [<-|[<-|[]]]; reflexivity. }
  refine (conj eq_refl (conj eq_refl (conj Hnone _))).
  exact (handleStatusEvent_no_pull_request (forgeClient Sample.onlyIssues) [] []
           (Sample.statusEvent "success") Sample.config
           {| Issues := [Sample.plainIssue 9; Sample.plainIssue 10] |}
           eq_refl eq_refl Hnone).
Defined.

(** X12. After a successful search, [handleStatusEvent] returns nil
    exactly when the attempt on every pull request of the search result
    ended without an error: one failed lookup or merge is enough for a
    non-nil result, and a skipped pull request does not count as a
    failure. *)
Theorem handleStatusEvent_nil_iff {W} (client : Client W) (w w1 : W)
    (event : StatusEvent) (config : RepoConfig) (searchResult : IssuesSearchResult) :
  ToLower (StatusEvent_GetState event) = "success" →
  client (Search_Issues (searchQuery event)) w = (Ok searchResult, w1) →
  (run client (handleStatusEvent event config) w).1.1 = None
  ↔ Forall (fun err => err = None)
           (attemptAll client event config
                       (List.filter isPullRequest (Issues searchResult)) w1).1.1.
Proof.
  intros Hstate Hsearch.
  rewrite (run_handleStatusEvent_found client event config _ _ _ Hstate Hsearch).
  destruct (attemptAll _ _ _ _ w1) as [[errs w2] calls]. cbn [fst].
  rewrite fold_Combine_None. split; [by intros [_ ?]|by intros ?].
Qed.

Lemma handleStatusEvent_nil_iff_witness :
  ToLower (StatusEvent_GetState (Sample.statusEvent "success")) = "success"
  ∧ forgeClient Sample.twoPullRequests
      (Search_Issues (searchQuery (Sample.statusEvent "success"))) []
    = (Ok {| Issues := [Sample.issue 7; Sample.plainIssue 9; Sample.issue 8] |}, [])
  ∧ ¬ Forall (fun err => err = None)
        (attemptAll (forgeClient Sample.twoPullRequests) (Sample.statusEvent "success")
                    Sample.config
                    (List.filter isPullRequest
                       [Sample.issue 7; Sample.plainIssue 9; Sample.issue 8]) []).1.1.
Proof.
  refine (conj eq_refl (conj eq_refl _)).
  intros Hall.
  apply (handleStatusEvent_nil_iff (forgeClient Sample.twoPullRequests) [] []
           (Sample.statusEvent "success") Sample.config
           {| Issues := [Sample.issue 7; Sample.plainIssue 9; Sample.issue 8] |}
           eq_refl eq_refl) in Hall.
  vm_compute in Hall. discriminate.
Defined.

(** X13. A commit status event that names its commit leads to merges at
    that commit only, and only in the repository of the event: every
    merge call of [handleStatusEvent] carries the owner and name of the
    repository of the event and the SHA of the event. *)
Theorem handleStatusEvent_merges_event_commit {W} (client : Client W) (w : W)
    (event : StatusEvent) (config : RepoConfig) :
  StatusEvent_GetSHA event ≠ "" →
  Forall (fun op =>
            isMerge op = true →
            ∃ number,
              op = PullRequests_Merge
                     (User_GetLogin (Repository_Owner (StatusEvent_Repo event)))
                     (Repository_GetName (StatusEvent_Repo event))
                     number "" (StatusEvent_GetSHA event))
         (run client (handleStatusEvent event config) w).2.
Proof.
  intros Hpinned. apply everyCall_run. unfold handleStatusEvent.
  destruct (negb _); [done|]. cbn. split; [done|].
  intros [searchResult|?]; [|done].
  by apply handleStatusEvent_range_pinned_calls.
Qed.

Lemma handleStatusEvent_merges_event_commit_witness :
  StatusEvent_GetSHA (Sample.statusEvent "success") ≠ ""
  ∧ Forall (fun op =>
              isMerge op = true → ∃ number, op = PullRequests_Merge "o" "r" number "" "abc")
           (run (forgeClient Sample.twoPullRequests)
                (handleStatusEvent (Sample.statusEvent "success") Sample.config) []).2.
Proof.
  assert (Hpinned : StatusEvent_GetSHA (Sample.statusEvent "success") ≠ "")
    by discriminate.
  refine (conj Hpinned _).
  exact (handleStatusEvent_merges_event_commit (forgeClient Sample.twoPullRequests) []
           (Sample.statusEvent "success") Sample.config Hpinned).
Defined.





(** ** More on the decision and the aggregated map *)

Section MoreEligibility.

Implicit Types (requiredContexts : list string) (prStatusMap : gmap string bool).

Lemma addStatuses_app (statuses1 statuses2 : list RepoStatus) prStatusMap :
  addStatuses (statuses1 ++ statuses2) prStatusMap
  = addStatuses statuses2 (addStatuses statuses1 prStatusMap).
Proof. apply fold_left_app. Qed.

Lemma addStatuses_other (statuses : list RepoStatus) prStatusMap (context : string) :
  Forall (fun status => RepoStatus_GetContext status ≠ context) statuses →
  addStatuses statuses prStatusMap !! context = prStatusMap !! context.
Proof.
  intros H. revert prStatusMap.
  induction H as [|status rest Hne _ IH]; intros prStatusMap; [done|].
  cbn. unfold addStatuses in IH. rewrite IH. by apply lookup_insert_ne.
Qed.

Lemma addStatuses_is_Some (statuses : list RepoStatus) prStatusMap (context : string) :
  is_Some (addStatuses statuses prStatusMap !! context)
  ↔ is_Some (prStatusMap !! context)
    ∨ ∃ status, status ∈ statuses ∧ RepoStatus_GetContext status = context.
Proof.
  revert prStatusMap. induction statuses as [|status rest IH]; intros prStatusMap; cbn.
  - split; [by left|]. intros [?|(? & Hin & _)]; [done|by inversion Hin].
  - unfold addStatuses in IH. rewrite IH, lookup_insert_is_Some. split.
    + intros [[Heq|[_ ?]]|(s & Hin & Hs)].
      * right. exists status. split; [by left|done].
      * by left.
      * right. exists s. split; [by right|done].
    + intros [Hm|(s & Hin & Hs)].
      * destruct (decide (RepoStatus_GetContext status = context)); [by left; left|].
        left. right. done.
      * inversion Hin; subst; [by left; left|]. right. by exists s.
Qed.

Lemma addCheckRuns_is_Some (checkRuns : list CheckRun) prStatusMap (context : string) :
  is_Some (addCheckRuns checkRuns prStatusMap !! context)
  ↔ is_Some (prStatusMap !! context)
    ∨ ∃ check, check ∈ checkRuns ∧ CheckRun_Name check = context.
Proof.
  revert prStatusMap. induction checkRuns as [|check rest IH]; intros prStatusMap; cbn.
  - split; [by left|]. intros [?|(? & Hin & _)]; [done|by inversion Hin].
  - unfold addCheckRuns in IH. rewrite IH, lookup_insert_is_Some. split.
    + intros [[Heq|[_ ?]]|(c & Hin & Hc)].
      * right. exists check. split; [by left|done].
      * by left.
      * right. exists c. split; [by right|done].
    + intros [Hm|(c & Hin & Hc)].
      * destruct (decide (CheckRun_Name check = context)); [by left; left|].
        left. right. done.
      * inversion Hin; subst; [by left; left|]. right. by exists c.
Qed.

End MoreEligibility.

(** X16. The decision depends on the required contexts as a set only:
    two lists with the same members, in whatever order and with whatever
    repetitions, give the same decision on every status map. *)
Theorem eligible_same_members (requiredContexts1 requiredContexts2 : list string)
    (prStatusMap : gmap string bool) :
  (∀ context, context ∈ requiredContexts1 ↔ context ∈ requiredContexts2) →
  eligible requiredContexts1 prStatusMap = eligible requiredContexts2 prStatusMap.
Proof.
  intros Hsame.
  destruct requiredContexts1 as [|c1 rest1], requiredContexts2 as [|c2 rest2]; [done| | |].
  - assert (Hin : c2 ∈ ([] : list string)) by (apply Hsame; by left). by inversion Hin.
  - assert (Hin : c1 ∈ ([] : list string)) by (apply Hsame; by left). by inversion Hin.
  - apply eq_true_iff_eq.
    rewrite !eligible_required by done.
    split; intros H context Hin; apply H, Hsame, Hin.
Qed.

Lemma eligible_same_members_witness :
  (∀ context, context ∈ ["ci/build"; "ci/test"]
              ↔ context ∈ ["ci/test"; "ci/build"; "ci/test"])
  ∧ eligible ["ci/build"; "ci/test"]
             (prStatusMapOf Sample.threeStatuses {| CheckRuns := [] |})
    = eligible ["ci/test"; "ci/build"; "ci/test"]
               (prStatusMapOf Sample.threeStatuses {| CheckRuns := [] |}).
Proof.
  assert (Hsame : ∀ context, context ∈ ["ci/build"; "ci/test"]
                             ↔ context ∈ ["ci/test"; "ci/build"; "ci/test"]).
  { intros context. rewrite !elem_of_cons, !elem_of_nil. tauto. }
  refine (conj Hsame _).
  exact (eligible_same_members _ _ _ Hsame).
Defined.

(** X17. With required contexts, entries of other contexts are ignored:
    two status maps that agree on every required context give the same
    decision. *)
Theorem eligible_required_entries_only (requiredContexts : list string)
    (prStatusMap1 prStatusMap2 : gmap string bool) :
  requiredContexts ≠ [] →
  (∀ context, context ∈ requiredContexts →
              prStatusMap1 !! context = prStatusMap2 !! context) →
  eligible requiredContexts prStatusMap1 = eligible requiredContexts prStatusMap2.
Proof.
  intros Hne Hagree. apply eq_true_iff_eq.
  rewrite !eligible_required by done.
  split; intros H context Hin; [rewrite <- Hagree|rewrite Hagree]; auto.
Qed.

Lemma eligible_required_entries_only_witness :
  ["ci/build"] ≠ []
  ∧ (∀ context, context ∈ ["ci/build"] →
       prStatusMapOf {| Statuses := [Sample.status "ci/build" "success"] |}
                     {| CheckRuns := [] |} !! context
       = prStatusMapOf {| Statuses := [Sample.status "ci/build" "success"] |}
                       {| CheckRuns := [Sample.check "lint" (Some "failure")] |}
         !! context)
  ∧ eligible ["ci/build"]
             (prStatusMapOf {| Statuses := [Sample.status "ci/build" "success"] |}
                            {| CheckRuns := [] |})
    = eligible ["ci/build"]
               (prStatusMapOf {| Statuses := [Sample.status "ci/build" "success"] |}
                              {| CheckRuns := [Sample.check "lint" (Some "failure")] |}).
Proof.
  assert (Hne : ["ci/build"] ≠ ([] : list string)) by discriminate.
  assert (Hagree : ∀ context, context ∈ ["ci/build"] →
       prStatusMapOf {| Statuses := [Sample.status "ci/build" "success"] |}
                     {| CheckRuns := [] |} !! context
       = prStatusMapOf {| Statuses := [Sample.status "ci/build" "success"] |}
                       {| CheckRuns := [Sample.check "lint" (Some "failure")] |}
         !! context).
  { intros context Hin. apply list_elem_of_In in Hin. destruct Hin as [<-|[]].
    vm_compute. reflexivity. }
  refine (conj Hne (conj Hagree _)).
  exact (eligible_required_entries_only _ _ _ Hne Hagree).
Defined.

(** X18. The keys of the aggregated status map are exactly the contexts
    reported: a context has an entry if and only if a legacy status has
    that context or a check run has that name.  A status without a
    context is counted under the empty context. *)
Theorem prStatusMapOf_keys (statuses : CombinedStatus) (prChecks : ListCheckRunsResults)
    (context : string) :
  is_Some (prStatusMapOf statuses prChecks !! context)
  ↔ (∃ status, status ∈ Statuses statuses ∧ RepoStatus_GetContext status = context)
    ∨ (∃ check, check ∈ CheckRuns prChecks ∧ CheckRun_Name check = context).
Proof.
  unfold prStatusMapOf. rewrite addCheckRuns_is_Some, addStatuses_is_Some.
  rewrite lookup_empty. split.
  - intros [[Hempty|?]|?]; [by destruct Hempty|by left|by right].
  - intros [?|?]; [left; by right|by right].
Qed.

(** X19. A context that no check run carries has the success flag of the
    last legacy status with that context: the state of that status
    compared with "success", letter for letter. *)
Theorem prStatusMapOf_last_status (before : list RepoStatus) (status : RepoStatus)
    (after : list RepoStatus) (prChecks : ListCheckRunsResults) :
  Forall (fun later => RepoStatus_GetContext later ≠ RepoStatus_GetContext status) after →
  Forall (fun check => CheckRun_Name check ≠ RepoStatus_GetContext status)
         (CheckRuns prChecks) →
  prStatusMapOf {| Statuses := before ++ status :: after |} prChecks
  !! RepoStatus_GetContext status
  = Some (bool_decide (RepoStatus_GetState status = "success")).
Proof.
  intros Hafter Hchecks.
  rewrite prStatusMapOf_status_only by done. cbn [Statuses].
  rewrite addStatuses_app. cbn.
  change (fold_left _ after ?x) with (addStatuses after x).
  rewrite addStatuses_other by done. apply lookup_insert_eq.
Qed.

Lemma prStatusMapOf_last_status_witness :
  Forall (fun later => RepoStatus_GetContext later
                       ≠ RepoStatus_GetContext (Sample.status "ci/build" "SUCCESS"))
         [Sample.status "lint" "success"]
  ∧ Forall (fun check => CheckRun_Name check
                         ≠ RepoStatus_GetContext (Sample.status "ci/build" "SUCCESS"))
           (CheckRuns {| CheckRuns := [Sample.check "ci/test" (Some "success")] |})
  ∧ prStatusMapOf {| Statuses := [Sample.status "ci/build" "success"]
                                 ++ Sample.status "ci/build" "SUCCESS"
                                 :: [Sample.status "lint" "success"] |}
                  {| CheckRuns := [Sample.check "ci/test" (Some "success")] |}
    !! "ci/build" = Some false.
Proof.
  assert (Hafter : Forall (fun later => RepoStatus_GetContext later
                       ≠ RepoStatus_GetContext (Sample.status "ci/build" "SUCCESS"))
         [Sample.status "lint" "success"])
    by (constructor; [discriminate|constructor]).
  assert (Hchecks : Forall (fun check => CheckRun_Name check
                         ≠ RepoStatus_GetContext (Sample.status "ci/build" "SUCCESS"))
           (CheckRuns {| CheckRuns := [Sample.check "ci/test" (Some "success")] |}))
    by (constructor; [discriminate|constructor]).
  refine (conj Hafter (conj Hchecks _)).
  exact (prStatusMapOf_last_status [Sample.status "ci/build" "success"]
           (Sample.status "ci/build" "SUCCESS") [Sample.status "lint" "success"]
           {| CheckRuns := [Sample.check "ci/test" (Some "success")] |} Hafter Hchecks).
Defined.

(** ** What blocks a merge *)

Section Blocked.

Context {W : Type} (client : Client W).

Lemma run_mergePR_blocked (w w' : W) (issue : Issue) (pr : PullRequest)
    (owner repository commitSHA : string) (config : RepoConfig)
    (statuses : CombinedStatus) (prChecks : ListCheckRunsResults)
    (required : result (list string)) (context : string) :
  passesGates issue pr commitSHA config →
  fetches client w owner repository pr statuses prChecks required w' →
  prStatusMapOf statuses prChecks !! context = Some false →
  required = Ok []
  ∨ (∃ msg, required = Err (ErrorResponse StatusNotFound msg))
  ∨ (∃ requiredContexts, required = Ok requiredContexts ∧ context ∈ requiredContexts) →
  run client (mergePR issue pr owner repository commitSHA config) w
  = (None, w', fetchCalls owner repository pr).
Proof.
  intros Hgates Hfetch Hentry Hpolicy.
  rewrite (run_mergePR_fetched client _ _ _ _ _ _ _ _ _ _ Hgates _ Hfetch).
  destruct Hpolicy as [->|[[msg ->]|(requiredContexts & -> & Hin)]].
  - apply runDecision_not_eligible, not_true_is_false. intros Hel.
    by pose proof (proj1 (eligible_nil _) Hel _ _ Hentry).
  - cbn [asErrorResponse]. rewrite bool_decide_eq_true_2 by done.
    apply runDecision_not_eligible, not_true_is_false. intros Hel.
    by pose proof (proj1 (eligible_nil _) Hel _ _ Hentry).
  - apply runDecision_not_eligible. eapply eligible_false_required; eauto.
Qed.


End Blocked.

(** X20. A legacy status whose state is not "success" (pending, failure,
    error, or "success" in other letter case) blocks the merge when it
    is the last status of its context, no check run carries that name,
    and either no contexts are required or its context is required:
    [mergePR] returns nil after the three lookups, without the merge
    call. *)
Theorem mergePR_unsuccessful_status_blocks {W} (client : Client W) (w w' : W)
    (issue : Issue) (pr : PullRequest) (owner repository commitSHA : string)
    (config : RepoConfig) (before : list RepoStatus) (status : RepoStatus)
    (after : list RepoStatus) (prChecks : ListCheckRunsResults)
    (required : result (list string)) :
  passesGates issue pr commitSHA config →
  fetches client w owner repository pr {| Statuses := before ++ status :: after |}
          prChecks required w' →
  RepoStatus_GetState status ≠ "success" →
  Forall (fun later => RepoStatus_GetContext later ≠ RepoStatus_GetContext status) after →
  Forall (fun check => CheckRun_Name check ≠ RepoStatus_GetContext status)
         (CheckRuns prChecks) →
  required = Ok []
  ∨ (∃ msg, required = Err (ErrorResponse StatusNotFound msg))
  ∨ (∃ requiredContexts,
       required = Ok requiredContexts
       ∧ RepoStatus_GetContext status ∈ requiredContexts) →
  run client (mergePR issue pr owner repository commitSHA config) w
  = (None, w', fetchCalls owner repository pr).
Proof.
  intros Hgates Hfetch Hstate Hafter Hchecks Hpolicy.
  eapply run_mergePR_blocked; [done..| |done].
  rewrite prStatusMapOf_status_only by done. cbn [Statuses].
  rewrite addStatuses_app. cbn.
  change (fold_left _ after ?x) with (addStatuses after x).
  rewrite addStatuses_other by done. rewrite lookup_insert_eq.
  unfold statusSucceeded. by rewrite bool_decide_eq_false_2.
Qed.

Lemma mergePR_unsuccessful_status_blocks_witness :
  passesGates (Sample.issue 7) (Sample.pr 7 "abc") "" Sample.config
  ∧ fetches (forgeClient Sample.statusPending) [] "o" "r" (Sample.pr 7 "abc")
            {| Statuses := [] ++ Sample.status "ci/build" "pending" :: [] |}
            {| CheckRuns := [] |} (Ok ["ci/build"]) []
  ∧ RepoStatus_GetState (Sample.status "ci/build" "pending") ≠ "success"
  ∧ run (forgeClient Sample.statusPending)
        (mergePR (Sample.issue 7) (Sample.pr 7 "abc") "o" "r" "" Sample.config) []
    = (None, [], fetchCalls "o" "r" (Sample.pr 7 "abc")).
Proof.
  assert (Hgates : passesGates (Sample.issue 7) (Sample.pr 7 "abc") "" Sample.config)
    by (split; [reflexivity|by left]).
  assert (Hfetch : fetches (forgeClient Sample.statusPending) [] "o" "r"
            (Sample.pr 7 "abc")
            {| Statuses := [] ++ Sample.status "ci/build" "pending" :: [] |}
            {| CheckRuns := [] |} (Ok ["ci/build"]) [])
    by (exists [], []; split_and!; reflexivity).
  assert (Hstate : RepoStatus_GetState (Sample.status "ci/build" "pending") ≠ "success")
    by discriminate.
  refine (conj Hgates (conj Hfetch (conj Hstate _))).
  apply (mergePR_unsuccessful_status_blocks (forgeClient Sample.statusPending) [] []
           _ _ _ _ "" _ [] (Sample.status "ci/build" "pending") [] {| CheckRuns := [] |}
           (Ok ["ci/build"]) Hgates Hfetch Hstate).
  - constructor.
  - constructor.
  - right. right. exists ["ci/build"]. split; [reflexivity|by left].
Defined.

(** X21. A check run whose conclusion is anything but "success" - none
    yet, or "failure", "neutral", "skipped" and the like - blocks the
    merge when it is the last check run of its name and either no
    contexts are required or its name is required, whatever the legacy
    statuses say. *)
Theorem mergePR_unsuccessful_check_blocks {W} (client : Client W) (w w' : W)
    (issue : Issue) (pr : PullRequest) (owner repository commitSHA : string)
    (config : RepoConfig) (statuses : CombinedStatus)
    (before : list CheckRun) (check : CheckRun) (after : list CheckRun)
    (required : result (list string)) :
  passesGates issue pr commitSHA config →
  fetches client w owner repository pr statuses
          {| CheckRuns := before ++ check :: after |} required w' →
  CheckRun_Conclusion check ≠ Some "success" →
  Forall (fun later => CheckRun_Name later ≠ CheckRun_Name check) after →
  required = Ok []
  ∨ (∃ msg, required = Err (ErrorResponse StatusNotFound msg))
  ∨ (∃ requiredContexts,
       required = Ok requiredContexts ∧ CheckRun_Name check ∈ requiredContexts) →
  run client (mergePR issue pr owner repository commitSHA config) w
  = (None, w', fetchCalls owner repository pr).
Proof.
  intros Hgates Hfetch Hconclusion Hafter Hpolicy.
  eapply run_mergePR_blocked; [done..| |done].
  unfold prStatusMapOf. cbn [CheckRuns]. rewrite addCheckRuns_last by done.
  unfold checkSucceeded. destruct (CheckRun_Conclusion check) as [conclusion|]; [|done].
  rewrite bool_decide_eq_false_2; [done|]. intros ->. by apply Hconclusion.
Qed.

Lemma mergePR_unsuccessful_check_blocks_witness :
  passesGates (Sample.issue 7) (Sample.pr 7 "abc") "" Sample.config
  ∧ fetches (forgeClient Sample.neutralCheck) [] "o" "r" (Sample.pr 7 "abc")
            {| Statuses := [Sample.status "lint" "success"] |}
            {| CheckRuns := [] ++ Sample.check "ci/build" (Some "neutral") :: [] |}
            Sample.notProtected []
  ∧ CheckRun_Conclusion (Sample.check "ci/build" (Some "neutral")) ≠ Some "success"
  ∧ run (forgeClient Sample.neutralCheck)
        (mergePR (Sample.issue 7) (Sample.pr 7 "abc") "o" "r" "" Sample.config) []
    = (None, [], fetchCalls "o" "r" (Sample.pr 7 "abc")).
Proof.
  assert (Hgates : passesGates (Sample.issue 7) (Sample.pr 7 "abc") "" Sample.config)
    by (split; [reflexivity|by left]).
  assert (Hfetch : fetches (forgeClient Sample.neutralCheck) [] "o" "r"
            (Sample.pr 7 "abc")
            {| Statuses := [Sample.status "lint" "success"] |}
            {| CheckRuns := [] ++ Sample.check "ci/build" (Some "neutral") :: [] |}
            Sample.notProtected [])
    by (exists [], []; split_and!; reflexivity).
  assert (Hconclusion : CheckRun_Conclusion (Sample.check "ci/build" (Some "neutral"))
                        ≠ Some "success") by discriminate.
  refine (conj Hgates (conj Hfetch (conj Hconclusion _))).
  apply (mergePR_unsuccessful_check_blocks (forgeClient Sample.neutralCheck) [] []
           _ _ _ _ "" _ _ [] (Sample.check "ci/build" (Some "neutral")) []
           Sample.notProtected Hgates Hfetch Hconclusion).
  - constructor.
  - right. left. eexists. reflexivity.
Defined.


